(** * The Romana watcher plugin of vpcrouter: a shallow embedding

    Source: [vpcrouter_romana_plugin/romana.py].  The plugin keeps a
    connection to etcd, reads the Romana IPAM document stored under one
    key, folds it into a route spec (CIDR -> list of host addresses) and
    puts that spec on the queue of the vpcrouter framework.

    Layout of this development:
    - [PyValue]: the Python values [json.loads] returns, with the
      subscript, [items] and iteration operations the plugin applies;
    - [RouteSpec]: the dict the plugin fills, in insertion order;
    - [Build]: lines 55--60 of the source, the fold of the document;
    - [Plugin]: the methods of class [Romana] over an explicit object
      state, in a state-and-exception monad, against a [world] that
      answers the calls made to etcd and to the vpcrouter framework;
    - the theorems. *)

From Stdlib Require Import ZArith List String Ascii Bool Lia DecimalString.
Import ListNotations.
Open Scope string_scope.
Open Scope Z_scope.

Set Warnings "-register-all".

(** ** Exceptions

    Instances of Python's [Exception]: the handlers of the plugin are all
    [except Exception].  [EtcdError] stands for whatever the etcd client
    or another collaborator raises. *)

Inductive exn : Type :=
| KeyError (k : string)
| TypeError
| AttributeError
| ValueError
| ArgsError (msg : string)
| EtcdError (code : nat).

Definition result (A : Type) : Type := (exn + A)%type.

Definition ok {A} (a : A) : result A := inr a.
Definition raise {A} (e : exn) : result A := inl e.

Definition rbind {A B} (r : result A) (k : A -> result B) : result B :=
  match r with
  | inl e => inl e
  | inr a => k a
  end.

Declare Scope result_scope.
Delimit Scope result_scope with result.
Notation "x <- r ;; k" := (rbind r (fun x => k))
  (at level 61, r at next level, right associativity) : result_scope.

Definition raises {A} (r : result A) : Prop := exists e, r = inl e.

(** [mapM] evaluates left to right and stops at the first exception, as a
    list comprehension does. *)
Fixpoint mapM {A B} (f : A -> result B) (l : list A) : result (list B) :=
  match l with
  | [] => ok []
  | a :: l' =>
      (b <- f a ;; bs <- mapM f l' ;; ok (b :: bs))%result
  end.

(** ** Python values *)

Module PyValue.

(** What [json.loads] builds: [None], booleans, integers, (unicode)
    strings, lists and dicts with string keys.  A dict is kept as the
    sequence of its items, in the order [items()] enumerates them.
    Numbers with a fraction or an exponent (Python floats) are left out:
    the topology document holds none. *)
Inductive json : Type :=
| JNull
| JBool (b : bool)
| JNum (n : Z)
| JStr (s : string)
| JArr (l : list json)
| JObj (items : list (string * json)).

Fixpoint dict_get (k : string) (items : list (string * json)) : option json :=
  match items with
  | [] => None
  | (k', v) :: rest => if String.eqb k k' then Some v else dict_get k rest
  end.

(** [v[k]] for a string [k]: only a dict accepts a string subscript. *)
Definition py_getitem (v : json) (k : string) : result json :=
  match v with
  | JObj items =>
      match dict_get k items with
      | Some x => ok x
      | None => raise (KeyError k)
      end
  | _ => raise TypeError
  end.

(** [v.items()]: only dicts have the method. *)
Definition py_items (v : json) : result (list (string * json)) :=
  match v with
  | JObj items => ok items
  | _ => raise AttributeError
  end.

Fixpoint chars (s : string) : list json :=
  match s with
  | EmptyString => []
  | String c s' => JStr (String c EmptyString) :: chars s'
  end.

(** [for h in v]: a list yields its elements, a dict its keys, a string
    its characters; nothing else is iterable. *)
Definition py_iter (v : json) : result (list json) :=
  match v with
  | JArr l => ok l
  | JObj items => ok (map (fun kv => JStr (fst kv)) items)
  | JStr s => ok (chars s)
  | _ => raise TypeError
  end.

(** Lists and dicts are unhashable and cannot be dict keys. *)
Definition py_hashable (v : json) : bool :=
  match v with
  | JArr _ | JObj _ => false
  | _ => true
  end.

Definition as_number (v : json) : option Z :=
  match v with
  | JBool true => Some 1
  | JBool false => Some 0
  | JNum n => Some n
  | _ => None
  end.

(** [a == b] on hashable values, as the dict uses it to find a key:
    strings by content, [True == 1] and [False == 0]. *)
Definition py_eqb (a b : json) : bool :=
  match a, b with
  | JStr x, JStr y => String.eqb x y
  | JNull, JNull => true
  | _, _ =>
      match as_number a, as_number b with
      | Some x, Some y => Z.eqb x y
      | _, _ => false
      end
  end.

End PyValue.
Export PyValue.

(** ** The route spec *)

Module RouteSpec.

(** The dict built by the plugin: items in insertion order, the keys
    pairwise different for [py_eqb]. *)
Definition route_spec : Type := list (json * list json).

Fixpoint rs_lookup (k : json) (rs : route_spec) : option (list json) :=
  match rs with
  | [] => None
  | (k', v) :: rest => if py_eqb k' k then Some v else rs_lookup k rest
  end.

(** [rs[k] = v] for a hashable [k]: an existing key keeps its place and
    gets the new value, a new key goes to the end. *)
Fixpoint rs_store (k : json) (v : list json) (rs : route_spec) : route_spec :=
  match rs with
  | [] => [(k, v)]
  | (k', v') :: rest =>
      if py_eqb k' k then (k', v) :: rest else (k', v') :: rs_store k v rest
  end.

Definition rs_setitem (rs : route_spec) (k : json) (v : list json)
  : result route_spec :=
  if py_hashable k then ok (rs_store k v rs) else raise TypeError.

Definition rs_keys (rs : route_spec) : list json := map fst rs.

End RouteSpec.
Export RouteSpec.

(** ** Lines 55--60: from the document to the route spec *)

Module Build.

(** [[h['ip'] for h in groups['hosts']]] *)
Definition host_ips (groups : json) : result (list json) :=
  (hs <- py_getitem groups "hosts" ;;
   l <- py_iter hs ;;
   mapM (fun h => py_getitem h "ip") l)%result.

(** One turn of the [for] loop of line 57. *)
Definition add_network (rs : route_spec) (item : string * json)
  : result route_spec :=
  let net_data := snd item in
  (g <- py_getitem net_data "groups" ;;
   cidr <- py_getitem g "cidr" ;;
   g' <- py_getitem net_data "groups" ;;
   hosts <- host_ips g' ;;
   rs_setitem rs cidr hosts)%result.

Fixpoint add_networks (rs : route_spec) (items : list (string * json))
  : result route_spec :=
  match items with
  | [] => ok rs
  | item :: rest => (rs' <- add_network rs item ;; add_networks rs' rest)%result
  end.

Definition build_route_spec (d : json) : result route_spec :=
  (nets <- py_getitem d "networks" ;;
   items <- py_items nets ;;
   add_networks [] items)%result.

End Build.
Export Build.

(** The scenario of the specification. *)
Definition scenario_doc : json :=
  JObj [("networks",
         JObj [("net1",
                JObj [("groups",
                       JObj [("cidr", JStr "10.0.0.0/24");
                             ("hosts", JArr [JObj [("ip", JStr "10.0.0.1")];
                                             JObj [("ip", JStr "10.0.0.2")]])])])])].

(** Two networks that carry the same CIDR. *)
Definition shared_cidr_doc : json :=
  JObj [("networks",
         JObj [("net1",
                JObj [("groups",
                       JObj [("cidr", JStr "10.0.0.0/24");
                             ("hosts", JArr [JObj [("ip", JStr "10.0.0.1")]])])]);
               ("net2",
                JObj [("groups",
                       JObj [("cidr", JStr "10.0.0.0/24");
                             ("hosts", JArr [JObj [("ip", JStr "10.0.0.2")]])])])])].

(** ** The plugin object and its collaborators *)

Module Plugin.

(** An etcd3 client object, named by the order of its creation. *)
Definition client : Type := nat.

Inductive level : Type := DEBUG | INFO | WARNING | ERROR.

(** What the plugin does to the outside, in the order it does it. *)
Inductive event : Type :=
| Log (lvl : level) (msg : string)
| Connect (host : string) (port : Z) (timeout : Z)
| Get (c : client) (key : string)
| Status (c : client)
| AddWatch (c : client) (key : string)
| CancelWatch (c : client) (w : Z)
| Put (rs : route_spec)
| Sleep (seconds : Z)
| ThreadStart
| ThreadJoin.

(** The collaborators: the etcd3 library, [json.loads], and the route
    spec check and address check of vpcrouter.  A call to etcd is
    answered from the events so far, so that the same call may succeed
    once and fail later.  [parse_route_spec_config] receives the dict
    itself: its answer is an exception or the content of the dict when
    it returns. *)
Record world : Type := {
  etcd3_client : list event -> string -> Z -> Z -> result client;
  etcd_get : list event -> client -> string -> result (option string);
  etcd_status : list event -> client -> result unit;
  etcd_add_watch_callback : list event -> client -> string -> result Z;
  etcd_cancel_watch : list event -> client -> Z -> result unit;
  json_loads : string -> result json;
  parse_route_spec_config : route_spec -> result route_spec;
  ip_check : string -> result unit
}.

(** The fields of a [Romana] object ([__init__], lines 39--46), the
    [conf] and [q_route_spec] it inherits, and the events so far. *)
Record Romana : Type := {
  key : string;
  connect_check_time : Z;
  etcd_timeout_time : Z;
  keep_running : bool;
  watch_id : option Z;
  etcd : option client;
  conf_addr : string;
  conf_port : Z;
  q_route_spec : list route_spec;
  history : list event
}.

Definition init (addr : string) (port : Z) : Romana :=
  {| key := "/romana/ipam/data";
     connect_check_time := 2;
     etcd_timeout_time := 2;
     keep_running := true;
     watch_id := None;
     etcd := None;
     conf_addr := addr;
     conf_port := port;
     q_route_spec := [];
     history := [] |}.

Definition set_etcd (v : option client) (s : Romana) : Romana :=
  {| key := key s; connect_check_time := connect_check_time s;
     etcd_timeout_time := etcd_timeout_time s; keep_running := keep_running s;
     watch_id := watch_id s; etcd := v;
     conf_addr := conf_addr s; conf_port := conf_port s;
     q_route_spec := q_route_spec s; history := history s |}.

Definition set_watch_id (v : option Z) (s : Romana) : Romana :=
  {| key := key s; connect_check_time := connect_check_time s;
     etcd_timeout_time := etcd_timeout_time s; keep_running := keep_running s;
     watch_id := v; etcd := etcd s;
     conf_addr := conf_addr s; conf_port := conf_port s;
     q_route_spec := q_route_spec s; history := history s |}.

Definition set_keep_running (v : bool) (s : Romana) : Romana :=
  {| key := key s; connect_check_time := connect_check_time s;
     etcd_timeout_time := etcd_timeout_time s; keep_running := v;
     watch_id := watch_id s; etcd := etcd s;
     conf_addr := conf_addr s; conf_port := conf_port s;
     q_route_spec := q_route_spec s; history := history s |}.

Definition enqueue (rs : route_spec) (s : Romana) : Romana :=
  {| key := key s; connect_check_time := connect_check_time s;
     etcd_timeout_time := etcd_timeout_time s; keep_running := keep_running s;
     watch_id := watch_id s; etcd := etcd s;
     conf_addr := conf_addr s; conf_port := conf_port s;
     q_route_spec := q_route_spec s ++ [rs]; history := history s |}.

Definition record (e : event) (s : Romana) : Romana :=
  {| key := key s; connect_check_time := connect_check_time s;
     etcd_timeout_time := etcd_timeout_time s; keep_running := keep_running s;
     watch_id := watch_id s; etcd := etcd s;
     conf_addr := conf_addr s; conf_port := conf_port s;
     q_route_spec := q_route_spec s; history := history s ++ [e] |}.

(** *** State and exceptions

    A statement maps the object to an outcome and the object it leaves:
    what was assigned before an exception stays assigned. *)
Definition M (A : Type) : Type := Romana -> result A * Romana.

Definition ret {A} (a : A) : M A := fun s => (ok a, s).

Definition bind {A B} (m : M A) (k : A -> M B) : M B :=
  fun s =>
    match m s with
    | (inl e, s') => (inl e, s')
    | (inr a, s') => k a s'
    end.

Definition throw {A} (e : exn) : M A := fun s => (raise e, s).

Definition lift {A} (r : result A) : M A := fun s => (r, s).

Definition gets {A} (f : Romana -> A) : M A := fun s => (ok (f s), s).

Definition modify (f : Romana -> Romana) : M unit := fun s => (ok tt, f s).

(** [try: body except Exception as e: handler e] *)
Definition try_except {A} (body : M A) (handler : exn -> M A) : M A :=
  fun s =>
    match body s with
    | (inl e, s') => handler e s'
    | (inr a, s') => (ok a, s')
    end.

Declare Scope py_scope.
Delimit Scope py_scope with py.
Notation "x <- m ;; k" := (bind m (fun x => k))
  (at level 61, m at next level, right associativity) : py_scope.
Notation "m ;; k" := (bind m (fun _ => k))
  (at level 61, right associativity) : py_scope.

(** [logging.debug], [info], [warning] and [error]: the message is
    recorded without the values the source formats into it. *)
Definition logging (lvl : level) (msg : string) : M unit :=
  modify (record (Log lvl msg)).

(** A call to the outside: the event is recorded, then the world
    answers from the events before the call. *)
Definition call {A} (e : event) (answer : list event -> result A) : M A :=
  fun s => (answer (history s), record e s).

(** [x.m] where [x] may be [None]. *)
Definition attr {A} (x : option A) : M A :=
  match x with
  | Some a => ret a
  | None => throw AttributeError
  end.

(** Truth value of [self.watch_id]: [None] and the integer 0 are false. *)
Definition truthy_watch_id (w : option Z) : bool :=
  match w with
  | Some n => negb (n =? 0)
  | None => false
  end.

(** Truth value of [self.etcd]: a client object is true, [None] false. *)
Definition truthy_etcd (c : option client) : bool :=
  match c with
  | Some _ => true
  | None => false
  end.

Section Methods.

Variable W : world.

(** [json.loads(v)]: [None], what etcd returns for an absent key, is
    not a JSON text. *)
Definition loads (v : option string) : result json :=
  match v with
  | Some txt => json_loads W txt
  | None => raise TypeError
  end.

(** Lines 55--62, the body of the [try]. *)
Definition load_body : M unit :=
  (e <- gets etcd ;;
   c <- attr e ;;
   k <- gets key ;;
   v <- call (Get c k) (fun h => etcd_get W h c k) ;;
   d <- lift (loads v) ;;
   route_spec <- lift (build_route_spec d) ;;
   checked <- lift (parse_route_spec_config W route_spec) ;;
   modify (enqueue checked) ;;
   modify (record (Put checked)))%py.

Definition load_topology_send_route_spec : M unit :=
  try_except load_body
    (fun _ => logging ERROR "Cannot load Romana topology data").

Definition event_callback : M unit :=
  (logging INFO "Romana watcher plugin: Detected topology change in Romana topology data" ;;
   load_topology_send_route_spec)%py.

Definition etcd_check_status : M bool :=
  (e <- gets etcd ;;
   match e with
   | Some c =>
       try_except
         (call (Status c) (fun h => etcd_status W h c) ;; ret true)
         (fun _ => logging DEBUG "Cannot get status from etcd" ;; ret false)
   | None =>
       logging DEBUG "Cannot get status from etcd, no connection" ;;
       ret false
   end)%py.

(** The condition of line 102, with the short circuit of [or]. *)
Definition reconnect_needed : M bool :=
  (e <- gets etcd ;;
   if negb (truthy_etcd e) then ret true
   else
     alive <- etcd_check_status ;;
     if negb alive then ret true
     else
       w <- gets watch_id ;;
       ret (match w with None => true | Some _ => false end))%py.

(** Lines 105--119, the body of the [try], in its three parts. *)
Definition open_client : M unit :=
  (logging DEBUG "Attempting to connect to etcd" ;;
   host <- gets conf_addr ;;
   port <- gets conf_port ;;
   timeout <- gets etcd_timeout_time ;;
   c <- call (Connect host port timeout)
             (fun h => etcd3_client W h host port timeout) ;;
   modify (set_etcd (Some c)))%py.

Definition initial_load : M unit :=
  (logging DEBUG "Initial data read" ;;
   load_topology_send_route_spec)%py.

Definition register_watch : M unit :=
  (logging DEBUG "Attempting to establish watch" ;;
   e <- gets etcd ;;
   c <- attr e ;;
   k <- gets key ;;
   w <- call (AddWatch c k) (fun h => etcd_add_watch_callback W h c k) ;;
   modify (set_watch_id (Some w)) ;;
   logging INFO "Romana watcher plugin: Established etcd connection and watch for topology data")%py.

Definition connect_body : M unit :=
  (open_client ;; initial_load ;; register_watch)%py.

Definition establish_etcd_connection_and_watch : M unit :=
  (needed <- reconnect_needed ;;
   if needed then
     try_except connect_body
       (fun _ =>
          logging ERROR "Cannot establish connection to etcd" ;;
          modify (set_etcd None) ;;
          modify (set_watch_id None))
   else ret tt)%py.

(** The inner loop of line 141.  [None]: the loop has not ended within
    [fuel] probes. *)
Fixpoint wait_while_connected (fuel : nat) : M (option unit) :=
  match fuel with
  | O => ret None
  | S fuel' =>
      (alive <- etcd_check_status ;;
       running <- (if alive then gets keep_running else ret false) ;;
       if running then
         t <- gets connect_check_time ;;
         modify (record (Sleep t)) ;;
         wait_while_connected fuel'
       else ret (Some tt))%py
  end.

(** [watch_etcd], lines 134--144, for at most [fuel] turns of each
    loop. *)
Fixpoint watch_etcd (fuel : nat) : M (option unit) :=
  match fuel with
  | O => ret None
  | S fuel' =>
      (running <- gets keep_running ;;
       if running then
         modify (set_etcd None) ;;
         modify (set_watch_id None) ;;
         establish_etcd_connection_and_watch ;;
         r <- wait_while_connected fuel' ;;
         match r with
         | None => ret None
         | Some _ =>
             logging WARNING "Romana watcher plugin: Lost etcd connection." ;;
             watch_etcd fuel'
         end
       else ret (Some tt))%py
  end.

(** [start], lines 151--158: the thread that runs [watch_etcd] is
    started; its steps are not part of [start]. *)
Definition start : M unit :=
  (logging INFO "Romana watcher plugin: Starting to watch for topology updates..." ;;
   modify (record ThreadStart))%py.

(** [stop], lines 165--170, on an object on which [start] has run, so
    that [self.observer_thread] exists.  [ThreadJoin] is the wait for
    the end of the thread.  [stop_from] below covers the object on which
    [start] has not run. *)
Definition stop : M unit :=
  (w <- gets watch_id ;;
   (if truthy_watch_id w then
      e <- gets etcd ;;
      c <- attr e ;;
      call (CancelWatch c (match w with Some n => n | None => 0 end))
           (fun h => etcd_cancel_watch W h c
                       (match w with Some n => n | None => 0 end))
    else ret tt) ;;
   logging DEBUG "Sending stop signal to etcd watcher thread" ;;
   modify (set_keep_running false) ;;
   modify (record ThreadJoin) ;;
   logging INFO "Romana watcher plugin: Stopped")%py.

(** [check_arguments], lines 194--199, on the [port] and [addr] of
    [conf]. *)
Definition invalid_port_message (port : Z) : string :=
  "Invalid etcd port '" ++ NilZero.string_of_int (Z.to_int port)
    ++ "' for Romana mode.".

Definition check_arguments (addr : string) (port : Z) : result unit :=
  if negb ((0 <? port) && (port <? 65535)) then
    raise (ArgsError (invalid_port_message port))
  else if negb (String.eqb addr "localhost") then
    ip_check W addr
  else ok tt.

End Methods.

End Plugin.
Export Plugin.

(** ** The documents of the specification

    The shape the specification gives for the topology document, read
    off the document without the plugin: a top-level [networks] object
    whose entries each have a [groups] object with a [cidr] string and a
    [hosts] list of objects that carry an [ip] field. *)

Module Document.

(** One network of a well-formed document: its name, its CIDR and the
    addresses of its hosts. *)
Record network : Type := {
  net_name : string;
  net_cidr : string;
  net_hosts : list json
}.

Definition field (k : string) (v : json) : option json :=
  match v with
  | JObj items => dict_get k items
  | _ => None
  end.

Definition has_field (k : string) (v : json) : bool :=
  match field k v with
  | Some _ => true
  | None => false
  end.

Fixpoint listed_ips (hs : list json) : option (list json) :=
  match hs with
  | [] => Some []
  | h :: hs' =>
      match field "ip" h, listed_ips hs' with
      | Some ip, Some ips => Some (ip :: ips)
      | _, _ => None
      end
  end.

Definition network_of (item : string * json) : option network :=
  match field "groups" (snd item) with
  | Some (JObj g) =>
      match dict_get "cidr" g, dict_get "hosts" g with
      | Some (JStr c), Some (JArr hs) =>
          match listed_ips hs with
          | Some ips =>
              Some {| net_name := fst item; net_cidr := c; net_hosts := ips |}
          | None => None
          end
      | _, _ => None
      end
  | _ => None
  end.

Fixpoint networks_of (items : list (string * json)) : option (list network) :=
  match items with
  | [] => Some []
  | item :: rest =>
      match network_of item, networks_of rest with
      | Some n, Some ns => Some (n :: ns)
      | _, _ => None
      end
  end.

(** The networks of a well-formed document, in the order of the
    document; [None] for any other document. *)
Definition doc_networks (d : json) : option (list network) :=
  match field "networks" d with
  | Some (JObj items) => networks_of items
  | _ => None
  end.

(** The hosts listed for [c] by the last network that carries it. *)
Fixpoint last_hosts (c : string) (ns : list network) : option (list json) :=
  match ns with
  | [] => None
  | n :: rest =>
      match last_hosts c rest with
      | Some ips => Some ips
      | None => if String.eqb (net_cidr n) c then Some (net_hosts n) else None
      end
  end.

(** Two networks of different names carry the same CIDR. *)
Definition shares_a_cidr (ns : list network) : Prop :=
  exists n1 n2,
    In n1 ns /\ In n2 ns /\
    net_name n1 <> net_name n2 /\ net_cidr n1 = net_cidr n2.

(** The [groups] object of a network entry has the field [k]. *)
Definition group_has (k : string) (net_data : json) : bool :=
  match field "groups" net_data with
  | Some g => has_field k g
  | None => false
  end.

(** The documents parsing has to refuse: no [networks] field, or a
    network entry without [cidr] or without [hosts]. *)
Inductive malformed (d : json) : Prop :=
| no_networks :
    has_field "networks" d = false -> malformed d
| no_cidr (items : list (string * json)) (item : string * json) :
    field "networks" d = Some (JObj items) -> In item items ->
    group_has "cidr" (snd item) = false -> malformed d
| no_hosts (items : list (string * json)) (item : string * json) :
    field "networks" d = Some (JObj items) -> In item items ->
    group_has "hosts" (snd item) = false -> malformed d.

End Document.
Export Document.

(** ** Auxiliary definitions for the statements *)

(** The route spec after the networks [ns] have been stored in turn. *)
Definition store_all (ns : list network) (rs : route_spec) : route_spec :=
  fold_left (fun acc n => rs_store (JStr (net_cidr n)) (net_hosts n) acc) ns rs.

Definition cidr_keys (ns : list network) : list json :=
  map (fun n => JStr (net_cidr n)) ns.

(** The steps of a connection attempt, as they show in the events. *)
Inductive step : Type := Opened | Loaded | Published | Watched.

Definition step_of (e : event) : option step :=
  match e with
  | Connect _ _ _ => Some Opened
  | Get _ _ => Some Loaded
  | Put _ => Some Published
  | AddWatch _ _ => Some Watched
  | _ => None
  end.

Fixpoint steps (evs : list event) : list step :=
  match evs with
  | [] => []
  | e :: rest =>
      match step_of e with
      | Some st => st :: steps rest
      | None => steps rest
      end
  end.

(** The ways a load can fail: no client, or an exception from the fetch,
    from [json.loads], from the fold of the document, or from the route
    spec check. *)
Inductive load_fails (W : world) (s : Romana) : Prop :=
| no_client :
    etcd s = None -> load_fails W s
| fetch_raises c e :
    etcd s = Some c ->
    etcd_get W (history s) c (key s) = raise e -> load_fails W s
| parse_raises c v e :
    etcd s = Some c ->
    etcd_get W (history s) c (key s) = ok v ->
    loads W v = raise e -> load_fails W s
| build_raises c v d e :
    etcd s = Some c ->
    etcd_get W (history s) c (key s) = ok v ->
    loads W v = ok d ->
    build_route_spec d = raise e -> load_fails W s
| check_raises c v d rs e :
    etcd s = Some c ->
    etcd_get W (history s) c (key s) = ok v ->
    loads W v = ok d ->
    build_route_spec d = ok rs ->
    parse_route_spec_config W rs = raise e -> load_fails W s.

(** The object [s] holds a client from which the document [d] is read. *)
Definition serves (W : world) (s : Romana) (d : json) : Prop :=
  exists c v,
    etcd s = Some c /\
    etcd_get W (history s) c (key s) = ok v /\
    loads W v = ok d.

(** The outcome of lines 55--61 as a value: the checked route spec, or
    the exception of the first stage that fails. *)
Definition fetched (W : world) (s : Romana) : result route_spec :=
  match etcd s with
  | None => raise AttributeError
  | Some c =>
      (v <- etcd_get W (history s) c (key s) ;;
       d <- loads W v ;;
       rs <- build_route_spec d ;;
       parse_route_spec_config W rs)%result
  end.

(** The events of the fetch: none without a client. *)
Definition fetch_recorded (s : Romana) : Romana :=
  match etcd s with
  | None => s
  | Some c => record (Get c (key s)) s
  end.

(** The object once the client [c] is opened from [s0]. *)
Definition opened (s0 : Romana) (c : client) : Romana :=
  set_etcd (Some c)
    (record (Connect (conf_addr s0) (conf_port s0) (etcd_timeout_time s0))
       (record (Log DEBUG "Attempting to connect to etcd") s0)).

(** What [etcd3.client] answers when it is called from [s0]. *)
Definition open_answer (W : world) (s0 : Romana) : result client :=
  etcd3_client W
    (history s0 ++ [Log DEBUG "Attempting to connect to etcd"])
    (conf_addr s0) (conf_port s0) (etcd_timeout_time s0).

(** What [add_watch_callback] answers when it is called from [s2] on the
    client [c]. *)
Definition watch_answer (W : world) (s2 : Romana) (c : client) : result Z :=
  etcd_add_watch_callback W
    (history s2 ++ [Log DEBUG "Attempting to establish watch"]) c (key s2).

(** The handler of line 120. *)
Definition abandon (s : Romana) : Romana :=
  set_watch_id None
    (set_etcd None (record (Log ERROR "Cannot establish connection to etcd") s)).

(** The object once [stop] has passed line 166: the flag is cleared and
    the thread joined. *)
Definition stopped (s : Romana) : Romana :=
  record (Log INFO "Romana watcher plugin: Stopped")
    (record ThreadJoin
       (set_keep_running false
          (record (Log DEBUG "Sending stop signal to etcd watcher thread") s))).

(** An etcd that answers every call, holds a document that decodes to
    [d], and hands out the watch id [w]; the route spec check accepts. *)
Definition healthy (d : json) (w : Z) : world :=
  {| etcd3_client := fun _ _ _ _ => ok 1%nat;
     etcd_get := fun _ _ _ => ok (Some "document");
     etcd_status := fun _ _ => ok tt;
     etcd_add_watch_callback := fun _ _ _ => ok w;
     etcd_cancel_watch := fun _ _ _ => ok tt;
     json_loads := fun _ => ok d;
     parse_route_spec_config := fun rs => ok rs;
     ip_check := fun _ => ok tt |}.

(** The same, but reading the document fails. *)
Definition unreadable (w : Z) : world :=
  {| etcd3_client := fun _ _ _ _ => ok 1%nat;
     etcd_get := fun _ _ _ => raise (EtcdError 14);
     etcd_status := fun _ _ => ok tt;
     etcd_add_watch_callback := fun _ _ _ => ok w;
     etcd_cancel_watch := fun _ _ _ => ok tt;
     json_loads := fun _ => raise ValueError;
     parse_route_spec_config := fun rs => ok rs;
     ip_check := fun _ => ok tt |}.

(** No etcd at the address. *)
Definition unreachable : world :=
  {| etcd3_client := fun _ _ _ _ => raise (EtcdError 14);
     etcd_get := fun _ _ _ => raise (EtcdError 14);
     etcd_status := fun _ _ => raise (EtcdError 14);
     etcd_add_watch_callback := fun _ _ _ => raise (EtcdError 14);
     etcd_cancel_watch := fun _ _ _ => raise (EtcdError 14);
     json_loads := fun _ => raise ValueError;
     parse_route_spec_config := fun rs => ok rs;
     ip_check := fun _ => ok tt |}.

(** A plugin object that holds the client [c] and the watch [w]. *)
Definition watching (c : client) (w : Z) : Romana :=
  set_watch_id (Some w) (set_etcd (Some c) (init "localhost" 2379)).

(** *** The claims that the code does not meet, as they are stated *)

(** Every network of a well-formed document finds its own hosts under
    its CIDR. *)
Definition each_network_keeps_its_hosts : Prop :=
  forall d ns,
    doc_networks d = Some ns ->
    exists rs,
      build_route_spec d = ok rs /\
      (forall k, In k (rs_keys rs) <-> In k (cidr_keys ns)) /\
      (forall n, In n ns -> rs_lookup (JStr (net_cidr n)) rs = Some (net_hosts n)).

(** A document in which two networks carry the same CIDR is refused and
    nothing is put on the queue. *)
Definition shared_cidr_is_rejected : Prop :=
  forall W s d ns,
    serves W s d ->
    doc_networks d = Some ns ->
    shares_a_cidr ns ->
    raises (build_route_spec d) /\
    q_route_spec (snd (load_topology_send_route_spec W s)) = q_route_spec s.

(** An exception raised while connecting, after the condition of line
    102 has left the object [s0]: from opening the client, from inside
    the initial load, or from the registration of the watch. *)
Inductive connecting_raises (W : world) (s0 : Romana) : Prop :=
| open_raises e :
    fst (open_client W s0) = raise e -> connecting_raises W s0
| load_raises s1 e :
    open_client W s0 = (ok tt, s1) ->
    fst (load_body W (record (Log DEBUG "Initial data read") s1)) = raise e ->
    connecting_raises W s0
| watch_raises s1 s2 e :
    open_client W s0 = (ok tt, s1) ->
    initial_load W s1 = (ok tt, s2) ->
    fst (register_watch W s2) = raise e ->
    connecting_raises W s0.

(** Every such exception leaves the object without client and without
    watch. *)
Definition connecting_exception_clears_handles : Prop :=
  forall W s s0,
    reconnect_needed W s = (ok true, s0) ->
    connecting_raises W s0 ->
    etcd (snd (establish_etcd_connection_and_watch W s)) = None /\
    watch_id (snd (establish_etcd_connection_and_watch W s)) = None.

(** Whenever a connection attempt ends with a watch handle, its steps
    were: the client opened, the document fetched, a route spec
    published, the watch registered. *)
Definition watch_follows_a_publication : Prop :=
  forall W s s0,
    reconnect_needed W s = (ok true, s0) ->
    watch_id (snd (establish_etcd_connection_and_watch W s)) <> None ->
    exists evs,
      history (snd (establish_etcd_connection_and_watch W s))
      = (history s0 ++ evs)%list /\
      steps evs = [Opened; Loaded; Published; Watched].

(** ** Auxiliary definitions for the further properties *)

(** No key of [rs] equals a later one: what a dict guarantees. *)
Fixpoint distinct_keys (rs : route_spec) : Prop :=
  match rs with
  | [] => True
  | (k, _) :: rest =>
      (forall k', In k' (rs_keys rest) -> py_eqb k k' = false) /\
      distinct_keys rest
  end.

(** The exceptions the fold of lines 57--60 is seen to raise: a failed
    subscript, iteration or hash ([TypeError]), a missing [items]
    ([AttributeError]), or one of the five fields missing. *)
Definition fold_exception (e : exn) : Prop :=
  e = TypeError \/ e = AttributeError \/
  exists k, e = KeyError k /\ In k ["networks"; "groups"; "cidr"; "hosts"; "ip"].

(** The events of the watching side: all but the cancellation of a
    watch and the start and join of the thread, which belong to [start]
    and [stop]. *)
Definition watcher_event (e : event) : bool :=
  match e with
  | CancelWatch _ _ | ThreadStart | ThreadJoin => false
  | _ => true
  end.

(** What the watching side keeps from [s] to [s']: the key, the
    intervals, the configuration and the flag; the queue and the events
    only grow, and by events of the watching side. *)
Record kept (s s' : Romana) : Prop := {
  kept_key : key s' = key s;
  kept_check_time : connect_check_time s' = connect_check_time s;
  kept_timeout : etcd_timeout_time s' = etcd_timeout_time s;
  kept_running : keep_running s' = keep_running s;
  kept_addr : conf_addr s' = conf_addr s;
  kept_port : conf_port s' = conf_port s;
  kept_queue : exists q, q_route_spec s' = (q_route_spec s ++ q)%list;
  kept_history :
    exists evs, history s' = (history s ++ evs)%list /\
                forallb watcher_event evs = true
}.

Definition keeps {A} (m : M A) : Prop := forall s, kept s (snd (m s)).

Definition is_connect (e : event) : bool :=
  match e with
  | Connect _ _ _ => true
  | _ => false
  end.

Definition is_sleep (e : event) : bool :=
  match e with
  | Sleep _ => true
  | _ => false
  end.

Definition count_events (p : event -> bool) (evs : list event) : nat :=
  List.length (filter p evs).


(** Line 169, [self.observer_thread.join()], after lines 167--168.  The
    attribute exists once [start] has run ([started]); without it the
    lookup raises [AttributeError], after the flag has been cleared. *)
Definition stop_signal_and_join (started : bool) : M unit :=
  (logging DEBUG "Sending stop signal to etcd watcher thread" ;;
   modify (set_keep_running false) ;;
   (if started then modify (record ThreadJoin) else throw AttributeError) ;;
   logging INFO "Romana watcher plugin: Stopped")%py.

(** [stop], lines 165--170, on any object: [started] tells whether
    [start] has run on it. *)
Definition stop_from (W : world) (started : bool) : M unit :=
  (w <- gets watch_id ;;
   (if truthy_watch_id w then
      e <- gets etcd ;;
      c <- attr e ;;
      call (CancelWatch c (match w with Some n => n | None => 0 end))
           (fun h => etcd_cancel_watch W h c
                       (match w with Some n => n | None => 0 end))
    else ret tt) ;;
   stop_signal_and_join started)%py.

(** The cancellation of line 166 is passed: there is no watch id, or
    the id is 0, or [cancel_watch] returns. *)
Definition cancel_passes (W : world) (s : Romana) : Prop :=
  truthy_watch_id (watch_id s) = false \/
  exists c w,
    etcd s = Some c /\ watch_id s = Some w /\
    etcd_cancel_watch W (history s) c w = ok tt.


(** * Theorems *)

(** ** Results *)

Lemma rbind_raises_l {A B} (r : result A) (k : A -> result B) :
  raises r -> raises (rbind r k).
Proof.
  intros [e He]. exists e. rewrite He. reflexivity.
Qed.

(** ** The route spec as a dict with string keys *)

Section StringKeys.

Lemma py_eqb_str (k : json) (c : string) :
  py_eqb k (JStr c) = true <-> k = JStr c.
Proof.
  split.
  - destruct k as [| [|] | n | x | l | items]; simpl; try discriminate.
    intros H. apply String.eqb_eq in H. now subst.
  - intros ->. simpl. apply String.eqb_refl.
Qed.

Lemma rs_lookup_store (c c' : string) (v : list json) (rs : route_spec) :
  rs_lookup (JStr c) (rs_store (JStr c') v rs)
  = if String.eqb c' c then Some v else rs_lookup (JStr c) rs.
Proof.
  induction rs as [| [k' v'] rest IH]; simpl.
  - reflexivity.
  - destruct (py_eqb k' (JStr c')) eqn:Ek'.
    + apply py_eqb_str in Ek'. subst k'. simpl.
      destruct (String.eqb c' c); reflexivity.
    + simpl. rewrite IH.
      destruct (py_eqb k' (JStr c)) eqn:Ek; [| reflexivity].
      apply py_eqb_str in Ek. subst k'. simpl in Ek'.
      rewrite String.eqb_sym in Ek'. now rewrite Ek'.
Qed.

Lemma rs_keys_store (k : json) (c : string) (v : list json) (rs : route_spec) :
  In k (rs_keys (rs_store (JStr c) v rs)) <-> k = JStr c \/ In k (rs_keys rs).
Proof.
  unfold rs_keys.
  induction rs as [| [k' v'] rest IH]; simpl.
  - intuition auto.
  - destruct (py_eqb k' (JStr c)) eqn:Ek'; simpl.
    + apply py_eqb_str in Ek'. subst k'. intuition auto.
    + rewrite IH. intuition auto.
Qed.

Lemma rs_lookup_store_all (c : string) (ns : list network) (rs : route_spec) :
  rs_lookup (JStr c) (store_all ns rs)
  = match last_hosts c ns with
    | Some ips => Some ips
    | None => rs_lookup (JStr c) rs
    end.
Proof.
  revert rs. unfold store_all.
  induction ns as [| n rest IH]; intros rs; simpl.
  - reflexivity.
  - rewrite IH, rs_lookup_store.
    destruct (last_hosts c rest); [reflexivity |].
    destruct (String.eqb (net_cidr n) c); reflexivity.
Qed.

Lemma rs_keys_store_all (k : json) (ns : list network) (rs : route_spec) :
  In k (rs_keys (store_all ns rs)) <-> In k (rs_keys rs) \/ In k (cidr_keys ns).
Proof.
  revert rs. unfold store_all, cidr_keys.
  induction ns as [| n rest IH]; intros rs; simpl.
  - intuition auto.
  - rewrite IH, rs_keys_store. intuition auto.
Qed.

Lemma last_hosts_none (c : string) (ns : list network) :
  ~ In c (map net_cidr ns) -> last_hosts c ns = None.
Proof.
  induction ns as [| n rest IH]; simpl; intros H.
  - reflexivity.
  - rewrite IH by tauto.
    destruct (String.eqb (net_cidr n) c) eqn:E; [| reflexivity].
    apply String.eqb_eq in E. tauto.
Qed.

Lemma last_hosts_unique (ns : list network) (n : network) :
  NoDup (map net_cidr ns) -> In n ns ->
  last_hosts (net_cidr n) ns = Some (net_hosts n).
Proof.
  induction ns as [| n0 rest IH]; simpl; intros Hnd Hin.
  - contradiction.
  - inversion Hnd as [| x l Hnotin Hrest]; subst.
    destruct Hin as [-> | Hin].
    + rewrite last_hosts_none by assumption.
      now rewrite String.eqb_refl.
    + now rewrite IH.
Qed.

End StringKeys.

(** ** The fold of a well-formed document *)

Section WellFormed.

Lemma field_getitem (k : string) (v x : json) :
  field k v = Some x -> py_getitem v k = ok x.
Proof.
  destruct v; simpl; try discriminate.
  intros H. now rewrite H.
Qed.

Lemma listed_ips_mapM (hs ips : list json) :
  listed_ips hs = Some ips ->
  mapM (fun h => py_getitem h "ip") hs = ok ips.
Proof.
  revert ips. induction hs as [| h rest IH]; simpl; intros ips H.
  - now inversion H.
  - destruct (field "ip" h) as [ip |] eqn:Eip; [| discriminate].
    destruct (listed_ips rest) as [ips' |]; [| discriminate].
    inversion H; subst.
    rewrite (field_getitem _ _ _ Eip). simpl.
    now rewrite (IH ips' eq_refl).
Qed.

Lemma add_network_well_formed (rs : route_spec) (item : string * json) (n : network) :
  network_of item = Some n ->
  add_network rs item = ok (rs_store (JStr (net_cidr n)) (net_hosts n) rs).
Proof.
  unfold network_of, add_network.
  destruct (field "groups" (snd item)) as [g |] eqn:Eg; [| discriminate].
  destruct g as [| | | | | g]; try discriminate.
  destruct (dict_get "cidr" g) as [c |] eqn:Ec; [| discriminate].
  destruct c as [| | | c | |]; try discriminate.
  destruct (dict_get "hosts" g) as [hs |] eqn:Eh; [| discriminate].
  destruct hs as [| | | | hs |]; try discriminate.
  destruct (listed_ips hs) as [ips |] eqn:Eips; [| discriminate].
  intros H. inversion H; subst; clear H. simpl.
  rewrite (field_getitem _ _ _ Eg). simpl.
  unfold host_ips. simpl. rewrite Ec, Eh. simpl.
  now rewrite (listed_ips_mapM _ _ Eips).
Qed.

Lemma add_networks_well_formed (items : list (string * json)) (ns : list network)
      (rs : route_spec) :
  networks_of items = Some ns ->
  add_networks rs items = ok (store_all ns rs).
Proof.
  revert ns rs. induction items as [| item rest IH]; simpl; intros ns rs H.
  - now inversion H.
  - destruct (network_of item) as [n |] eqn:En; [| discriminate].
    destruct (networks_of rest) as [ns' |]; [| discriminate].
    inversion H; subst.
    rewrite (add_network_well_formed rs item n En). simpl.
    now apply IH.
Qed.

Lemma build_well_formed (d : json) (ns : list network) :
  doc_networks d = Some ns ->
  build_route_spec d = ok (store_all ns []).
Proof.
  unfold doc_networks, build_route_spec.
  destruct (field "networks" d) as [nets |] eqn:En; [| discriminate].
  destruct nets as [| | | | | items]; try discriminate.
  intros H. rewrite (field_getitem _ _ _ En). simpl.
  now apply add_networks_well_formed.
Qed.

End WellFormed.

(** C1 (as amended).  For a well-formed document the fold of lines
    55--60 succeeds; the keys of the route spec are exactly the CIDRs of
    the document; the value under a CIDR is the host list of the last
    network, in the order of [items()], that carries it; when no two
    networks carry the same CIDR, every network finds its own host list
    under its CIDR.  The scenario document gives
    [{"10.0.0.0/24": ["10.0.0.1", "10.0.0.2"]}]. *)
Theorem build_route_spec_last_network_wins :
  (forall d ns,
      doc_networks d = Some ns ->
      exists rs,
        build_route_spec d = ok rs /\
        (forall k, In k (rs_keys rs) <-> In k (cidr_keys ns)) /\
        (forall c, rs_lookup (JStr c) rs = last_hosts c ns) /\
        (NoDup (map net_cidr ns) ->
         forall n, In n ns ->
                   rs_lookup (JStr (net_cidr n)) rs = Some (net_hosts n))) /\
  build_route_spec scenario_doc
  = ok [(JStr "10.0.0.0/24", [JStr "10.0.0.1"; JStr "10.0.0.2"])].
Proof.
  split; [| reflexivity].
  intros d ns Hd. exists (store_all ns []).
  split; [now apply build_well_formed |].
  split; [| split].
  - intros k. rewrite rs_keys_store_all. simpl. tauto.
  - intros c. rewrite rs_lookup_store_all. simpl.
    destruct (last_hosts c ns); reflexivity.
  - intros Hnd n Hin. rewrite rs_lookup_store_all.
    now rewrite (last_hosts_unique ns n Hnd Hin).
Qed.

Lemma build_route_spec_last_network_wins_witness :
  exists rs,
    build_route_spec scenario_doc = ok rs /\
    rs_lookup (JStr "10.0.0.0/24") rs = Some [JStr "10.0.0.1"; JStr "10.0.0.2"].
Proof.
  destruct (proj1 build_route_spec_last_network_wins scenario_doc
              [{| net_name := "net1"; net_cidr := "10.0.0.0/24";
                  net_hosts := [JStr "10.0.0.1"; JStr "10.0.0.2"] |}]
              eq_refl) as [rs [Hb [_ [Hl _]]]].
  exists rs. split; [exact Hb | rewrite Hl; reflexivity].
Defined.

(** C1 (as stated) fails on a document in which two networks carry the
    same CIDR: the hosts of the first network are not in the route spec. *)
Lemma each_network_keeps_its_hosts_fails : ~ each_network_keeps_its_hosts.
Proof.
  intros H.
  destruct (H shared_cidr_doc
              [{| net_name := "net1"; net_cidr := "10.0.0.0/24";
                  net_hosts := [JStr "10.0.0.1"] |};
               {| net_name := "net2"; net_cidr := "10.0.0.0/24";
                  net_hosts := [JStr "10.0.0.2"] |}]
              eq_refl) as [rs [Hb [_ Hv]]].
  specialize (Hv _ (or_introl eq_refl)).
  vm_compute in Hb. inversion Hb; subst; clear Hb.
  vm_compute in Hv. discriminate Hv.
Qed.

(** ** The equations of the methods *)

Ltac unfold_py :=
  unfold bind, ret, throw, lift, gets, modify, try_except, call, attr, logging;
  cbn.

Section Equations.

Variable W : world.

Lemma load_body_eq (s : Romana) :
  load_body W s
  = match fetched W s with
    | inl e => (raise e, fetch_recorded s)
    | inr rs => (ok tt, record (Put rs) (enqueue rs (fetch_recorded s)))
    end.
Proof.
  unfold load_body, fetched, fetch_recorded. unfold_py.
  destruct (etcd s) as [c |]; cbn; [| reflexivity].
  destruct (etcd_get W (history s) c (key s)) as [e | v]; cbn; [reflexivity |].
  destruct (loads W v) as [e | d]; cbn; [reflexivity |].
  destruct (build_route_spec d) as [e | rs]; cbn; [reflexivity |].
  destruct (parse_route_spec_config W rs) as [e | rs']; reflexivity.
Qed.

Lemma load_eq (s : Romana) :
  load_topology_send_route_spec W s
  = match fetched W s with
    | inl _ =>
        (ok tt,
         record (Log ERROR "Cannot load Romana topology data") (fetch_recorded s))
    | inr rs => (ok tt, record (Put rs) (enqueue rs (fetch_recorded s)))
    end.
Proof.
  unfold load_topology_send_route_spec, try_except.
  rewrite load_body_eq.
  destruct (fetched W s); reflexivity.
Qed.

Lemma load_fails_fetched (s : Romana) :
  load_fails W s <-> raises (fetched W s).
Proof.
  unfold fetched. split.
  - intros [H1 | c e H1 H2 | c v e H1 H2 H3 | c v d e H1 H2 H3 H4
           | c v d rs e H1 H2 H3 H4 H5]; rewrite H1.
    + now exists AttributeError.
    + exists e. now rewrite H2.
    + exists e. rewrite H2. simpl. now rewrite H3.
    + exists e. rewrite H2. simpl. rewrite H3. simpl. now rewrite H4.
    + exists e. rewrite H2. simpl. rewrite H3. simpl. rewrite H4. simpl.
      now rewrite H5.
  - intros [e He].
    destruct (etcd s) as [c |] eqn:Ec; [| now apply no_client].
    destruct (etcd_get W (history s) c (key s)) as [e1 | v] eqn:Ev;
      [now apply (fetch_raises W s c e1) |].
    destruct (loads W v) as [e2 | d] eqn:Ed;
      [now apply (parse_raises W s c v e2) |].
    destruct (build_route_spec d) as [e3 | rs] eqn:Eb;
      [now apply (build_raises W s c v d e3) |].
    destruct (parse_route_spec_config W rs) as [e4 | rs'] eqn:Ep;
      [now apply (check_raises W s c v d rs e4) |].
    simpl in He. rewrite Ed in He. simpl in He. rewrite Eb in He. simpl in He.
    rewrite Ep in He. discriminate He.
Qed.

Lemma fetch_recorded_fields (s : Romana) :
  q_route_spec (fetch_recorded s) = q_route_spec s /\
  etcd (fetch_recorded s) = etcd s /\
  watch_id (fetch_recorded s) = watch_id s /\
  keep_running (fetch_recorded s) = keep_running s.
Proof.
  unfold fetch_recorded. destruct (etcd s) eqn:E; simpl; auto.
Qed.

Lemma serves_fetched (s : Romana) (d : json) :
  serves W s d ->
  fetched W s = (rs <- build_route_spec d ;; parse_route_spec_config W rs)%result.
Proof.
  intros [c [v [Hc [Hv Hd]]]]. unfold fetched.
  rewrite Hc, Hv. simpl. now rewrite Hd.
Qed.

Lemma etcd_check_status_eq (s : Romana) :
  etcd_check_status W s
  = match etcd s with
    | None =>
        (ok false,
         record (Log DEBUG "Cannot get status from etcd, no connection") s)
    | Some c =>
        match etcd_status W (history s) c with
        | inl _ =>
            (ok false,
             record (Log DEBUG "Cannot get status from etcd")
               (record (Status c) s))
        | inr _ => (ok true, record (Status c) s)
        end
    end.
Proof.
  unfold etcd_check_status. unfold_py.
  destruct (etcd s) as [c |]; cbn; [| reflexivity].
  destruct (etcd_status W (history s) c); reflexivity.
Qed.

End Equations.

(** ** Loads *)

(** C4.  A load never raises to its caller; when any stage of it fails
    (no client, or an exception from the fetch, the decoding, the fold or
    the route spec check) the queue is left as it was, no publication is
    recorded, and the client and watch handles are untouched. *)
Theorem failed_load_is_absorbed (W : world) (s : Romana) :
  (exists s', load_topology_send_route_spec W s = (ok tt, s')) /\
  (load_fails W s ->
   exists evs,
     let s' := snd (load_topology_send_route_spec W s) in
     q_route_spec s' = q_route_spec s /\
     history s' = (history s ++ evs)%list /\
     steps evs = match etcd s with Some _ => [Loaded] | None => [] end /\
     etcd s' = etcd s /\ watch_id s' = watch_id s).
Proof.
  rewrite load_eq. split.
  - destruct (fetched W s); eauto.
  - intros Hf. apply load_fails_fetched in Hf. destruct Hf as [e He].
    rewrite He. unfold fetch_recorded.
    destruct (etcd s) as [c |] eqn:Ec; cbn.
    + exists [Get c (key s); Log ERROR "Cannot load Romana topology data"].
      rewrite <- app_assoc. cbn. auto.
    + exists [Log ERROR "Cannot load Romana topology data"]. cbn. auto.
Qed.

Lemma failed_load_is_absorbed_witness :
  let s := enqueue [(JStr "10.0.0.0/24", [JStr "10.0.0.1"])] (watching 1%nat 0) in
  q_route_spec (snd (load_topology_send_route_spec (unreadable 0) s))
  = [[(JStr "10.0.0.0/24", [JStr "10.0.0.1"])]].
Proof.
  intros s.
  destruct (proj2 (failed_load_is_absorbed (unreadable 0) s)) as [evs [Hq _]].
  - apply (fetch_raises (unreadable 0) s 1%nat (EtcdError 14)); reflexivity.
  - exact Hq.
Defined.

Lemma last_hosts_split (pre post : list network) (n : network) :
  ~ In (net_cidr n) (map net_cidr post) ->
  last_hosts (net_cidr n) (pre ++ n :: post) = Some (net_hosts n).
Proof.
  intros Hpost. induction pre as [| a rest IH]; simpl.
  - rewrite last_hosts_none by assumption. now rewrite String.eqb_refl.
  - now rewrite IH.
Qed.

(** C2 (as amended).  A well-formed document in which two networks of
    different names carry the same CIDR is not refused: the fold
    succeeds, the network that comes last in the order of [items()]
    overwrites the others under that CIDR, and the load puts the route
    spec on the queue as soon as the route spec check accepts it. *)
Theorem shared_cidr_last_network_wins (W : world) (s : Romana) (d : json)
        (ns : list network) :
  serves W s d ->
  doc_networks d = Some ns ->
  shares_a_cidr ns ->
  exists rs,
    build_route_spec d = ok rs /\
    (forall pre n post,
        ns = (pre ++ n :: post)%list ->
        ~ In (net_cidr n) (map net_cidr post) ->
        rs_lookup (JStr (net_cidr n)) rs = Some (net_hosts n)) /\
    (forall checked,
        parse_route_spec_config W rs = ok checked ->
        q_route_spec (snd (load_topology_send_route_spec W s))
        = (q_route_spec s ++ [checked])%list).
Proof.
  intros Hs Hd _. exists (store_all ns []).
  pose proof (build_well_formed d ns Hd) as Hb.
  split; [exact Hb |]. split.
  - intros pre n post -> Hpost.
    rewrite rs_lookup_store_all, last_hosts_split by assumption. reflexivity.
  - intros checked Hc.
    rewrite load_eq, (serves_fetched W s d Hs), Hb. simpl. rewrite Hc. simpl.
    now rewrite (proj1 (fetch_recorded_fields s)).
Qed.

Lemma shared_cidr_last_network_wins_witness :
  q_route_spec
    (snd (load_topology_send_route_spec (healthy shared_cidr_doc 0)
            (watching 1%nat 0)))
  = [[(JStr "10.0.0.0/24", [JStr "10.0.0.2"])]].
Proof.
  destruct (shared_cidr_last_network_wins
              (healthy shared_cidr_doc 0) (watching 1%nat 0) shared_cidr_doc
              [{| net_name := "net1"; net_cidr := "10.0.0.0/24";
                  net_hosts := [JStr "10.0.0.1"] |};
               {| net_name := "net2"; net_cidr := "10.0.0.0/24";
                  net_hosts := [JStr "10.0.0.2"] |}])
    as [rs [Hb [_ Hq]]].
  - exists 1%nat, (Some "document"). repeat split; reflexivity.
  - reflexivity.
  - exists {| net_name := "net1"; net_cidr := "10.0.0.0/24";
              net_hosts := [JStr "10.0.0.1"] |},
           {| net_name := "net2"; net_cidr := "10.0.0.0/24";
              net_hosts := [JStr "10.0.0.2"] |}.
    simpl. repeat split; auto. discriminate.
  - vm_compute in Hb. inversion Hb; subst; clear Hb.
    rewrite (Hq _ eq_refl). reflexivity.
Defined.

(** C2 (as stated) fails: the document with [net1] and [net2] on
    [10.0.0.0/24] is folded without exception. *)
Lemma shared_cidr_is_rejected_fails : ~ shared_cidr_is_rejected.
Proof.
  intros H.
  destruct (H (healthy shared_cidr_doc 0) (watching 1%nat 0) shared_cidr_doc
              [{| net_name := "net1"; net_cidr := "10.0.0.0/24";
                  net_hosts := [JStr "10.0.0.1"] |};
               {| net_name := "net2"; net_cidr := "10.0.0.0/24";
                  net_hosts := [JStr "10.0.0.2"] |}])
    as [[e He] _].
  - exists 1%nat, (Some "document"). repeat split; reflexivity.
  - reflexivity.
  - exists {| net_name := "net1"; net_cidr := "10.0.0.0/24";
              net_hosts := [JStr "10.0.0.1"] |},
           {| net_name := "net2"; net_cidr := "10.0.0.0/24";
              net_hosts := [JStr "10.0.0.2"] |}.
    simpl. repeat split; auto. discriminate.
  - vm_compute in He. discriminate He.
Qed.

(** ** Malformed documents *)

Section Malformed.

Lemma missing_field_raises (k : string) (v : json) :
  has_field k v = false -> raises (py_getitem v k).
Proof.
  unfold has_field, field, py_getitem.
  destruct v as [| b | n | x | l | items]; try (intros _; now exists TypeError).
  destruct (dict_get k items); [discriminate |].
  intros _. now exists (KeyError k).
Qed.

Lemma add_network_without_cidr (rs : route_spec) (item : string * json) :
  group_has "cidr" (snd item) = false -> raises (add_network rs item).
Proof.
  unfold group_has, add_network. intros H.
  destruct (field "groups" (snd item)) as [g |] eqn:Eg.
  - rewrite (field_getitem _ _ _ Eg). simpl.
    apply rbind_raises_l. now apply missing_field_raises.
  - apply rbind_raises_l. apply missing_field_raises.
    unfold has_field. now rewrite Eg.
Qed.

Lemma add_network_without_hosts (rs : route_spec) (item : string * json) :
  group_has "hosts" (snd item) = false -> raises (add_network rs item).
Proof.
  unfold group_has, add_network. intros H.
  destruct (field "groups" (snd item)) as [g |] eqn:Eg.
  - rewrite (field_getitem _ _ _ Eg). simpl.
    destruct (py_getitem g "cidr") as [e | c]; simpl; [now exists e |].
    unfold host_ips. do 2 apply rbind_raises_l.
    now apply missing_field_raises.
  - apply rbind_raises_l. apply missing_field_raises.
    unfold has_field. now rewrite Eg.
Qed.

(** The loop stops at the first network that raises, whatever the
    route spec holds by then. *)
Lemma add_networks_raises (items : list (string * json)) (item : string * json) :
  In item items ->
  (forall rs, raises (add_network rs item)) ->
  forall rs, raises (add_networks rs items).
Proof.
  intros Hin Hbad. induction items as [| a rest IH]; simpl; intros rs.
  - contradiction.
  - destruct Hin as [-> | Hin].
    + apply rbind_raises_l. apply Hbad.
    + destruct (add_network rs a) as [e | rs']; simpl.
      * now exists e.
      * now apply IH.
Qed.

Lemma malformed_raises (d : json) :
  malformed d -> raises (build_route_spec d).
Proof.
  unfold build_route_spec.
  intros [H | items item Hn Hin H | items item Hn Hin H].
  - apply rbind_raises_l. now apply missing_field_raises.
  - rewrite (field_getitem _ _ _ Hn). simpl.
    apply (add_networks_raises items item Hin).
    intros rs. now apply add_network_without_cidr.
  - rewrite (field_getitem _ _ _ Hn). simpl.
    apply (add_networks_raises items item Hin).
    intros rs. now apply add_network_without_hosts.
Qed.

End Malformed.

(** C3.  A document without [networks] field, or with a network entry
    without [cidr] or without [hosts], makes the fold of lines 55--60
    raise; the load that reads such a document returns normally, leaves
    the queue as it was and records no publication. *)
Theorem malformed_document_is_not_published (W : world) (s : Romana) (d : json) :
  malformed d ->
  raises (build_route_spec d) /\
  (serves W s d ->
   exists s' evs,
     load_topology_send_route_spec W s = (ok tt, s') /\
     q_route_spec s' = q_route_spec s /\
     history s' = (history s ++ evs)%list /\
     steps evs = [Loaded]).
Proof.
  intros Hm. pose proof (malformed_raises d Hm) as [e He].
  split; [now exists e |].
  intros Hs. pose proof Hs as [c [v [Hc _]]].
  rewrite load_eq, (serves_fetched W s d Hs), He. simpl.
  unfold fetch_recorded. rewrite Hc.
  eexists _, [Get c (key s); Log ERROR "Cannot load Romana topology data"].
  split; [reflexivity |]. cbn. rewrite <- app_assoc. auto.
Qed.

Lemma malformed_document_is_not_published_witness :
  raises (build_route_spec
            (JObj [("networks",
                    JObj [("net1", JObj [("groups",
                                          JObj [("cidr", JStr "10.0.0.0/24")])])])])).
Proof.
  refine (proj1 (malformed_document_is_not_published
                   (healthy JNull 0) (watching 1%nat 0) _ _)).
  eapply no_hosts with (item := ("net1", _)).
  - reflexivity.
  - left. reflexivity.
  - reflexivity.
Defined.

(** ** The connection *)

Section Connection.

Variable W : world.

Lemma reconnect_needed_eq (s : Romana) :
  reconnect_needed W s
  = match etcd s with
    | None => (ok true, s)
    | Some c =>
        match etcd_status W (history s) c with
        | inl _ =>
            (ok true,
             record (Log DEBUG "Cannot get status from etcd")
               (record (Status c) s))
        | inr _ =>
            (ok (match watch_id s with None => true | Some _ => false end),
             record (Status c) s)
        end
    end.
Proof.
  unfold reconnect_needed, bind at 1, gets at 1.
  destruct (etcd s) as [c |] eqn:Ec; cbn; [| reflexivity].
  unfold bind at 1. rewrite etcd_check_status_eq, Ec.
  destruct (etcd_status W (history s) c); cbn; [reflexivity |].
  destruct (watch_id s); reflexivity.
Qed.

Lemma open_client_eq (s0 : Romana) :
  open_client W s0
  = match open_answer W s0 with
    | inl e =>
        (raise e,
         record (Connect (conf_addr s0) (conf_port s0) (etcd_timeout_time s0))
           (record (Log DEBUG "Attempting to connect to etcd") s0))
    | inr c => (ok tt, opened s0 c)
    end.
Proof.
  unfold open_client, open_answer, opened. unfold_py.
  destruct (etcd3_client W _ _ _ _); reflexivity.
Qed.

End Connection.

Section Registration.

Variable W : world.

Lemma initial_load_eq (s1 : Romana) :
  initial_load W s1
  = load_topology_send_route_spec W (record (Log DEBUG "Initial data read") s1).
Proof.
  unfold initial_load, bind, logging, modify.
  destruct (load_topology_send_route_spec W _) as [[e | []] s']; reflexivity.
Qed.

Lemma initial_load_returns (s1 : Romana) :
  exists s2, initial_load W s1 = (ok tt, s2) /\
             etcd s2 = etcd s1 /\ watch_id s2 = watch_id s1.
Proof.
  rewrite initial_load_eq, load_eq.
  set (s := record (Log DEBUG "Initial data read") s1).
  destruct (fetched W s) as [e | rs]; eexists; (split; [reflexivity |]);
    cbn; destruct (fetch_recorded_fields s) as [_ [He [Hw _]]];
    rewrite He, Hw; auto.
Qed.

Lemma register_watch_eq (s2 : Romana) :
  register_watch W s2
  = match etcd s2 with
    | None =>
        (raise AttributeError,
         record (Log DEBUG "Attempting to establish watch") s2)
    | Some c =>
        let s3 := record (AddWatch c (key s2))
                    (record (Log DEBUG "Attempting to establish watch") s2) in
        match watch_answer W s2 c with
        | inl e => (raise e, s3)
        | inr w =>
            (ok tt,
             record (Log INFO "Romana watcher plugin: Established etcd connection and watch for topology data")
               (set_watch_id (Some w) s3))
        end
    end.
Proof.
  unfold register_watch, watch_answer. unfold_py.
  destruct (etcd s2) as [c |]; cbn; [| reflexivity].
  destruct (etcd_add_watch_callback W _ c (key s2)); reflexivity.
Qed.

Lemma establish_eq (s : Romana) :
  establish_etcd_connection_and_watch W s
  = match reconnect_needed W s with
    | (inl e, s0) => (raise e, s0)
    | (inr false, s0) => (ok tt, s0)
    | (inr true, s0) =>
        match open_client W s0 with
        | (inl _, s1) => (ok tt, abandon s1)
        | (inr _, s1) =>
            match initial_load W s1 with
            | (inl _, s2) => (ok tt, abandon s2)
            | (inr _, s2) =>
                match register_watch W s2 with
                | (inl _, s3) => (ok tt, abandon s3)
                | (inr _, s3) => (ok tt, s3)
                end
            end
        end
    end.
Proof.
  unfold establish_etcd_connection_and_watch, bind at 1.
  destruct (reconnect_needed W s) as [[e | [|]] s0]; try reflexivity.
  unfold try_except, connect_body, bind.
  destruct (open_client W s0) as [[e | []] s1]; [reflexivity |].
  destruct (initial_load W s1) as [[e | []] s2]; [reflexivity |].
  destruct (register_watch W s2) as [[e | []] s3]; reflexivity.
Qed.

End Registration.

Ltac history_suffix :=
  cbn; repeat rewrite <- app_assoc; cbn; reflexivity.

(** C5 (as amended).  When the condition of line 102 holds,
    [establish_etcd_connection_and_watch] returns normally and the events
    it adds show its steps in this order.  The client is opened; if that
    raises, nothing else is attempted and both handles are cleared.
    Otherwise the document is fetched exactly once; a route spec is put
    on the queue only if that load succeeds, and then before the watch
    is registered; when the load fails the watch is registered all the
    same, with nothing published and the queue as it was.  The watch is
    registered last: the handles are the new client and the watch id
    when the registration returns, and cleared when it raises. *)
Theorem connection_attempt_steps (W : world) (s s0 : Romana) :
  reconnect_needed W s = (ok true, s0) ->
  exists s' evs,
    establish_etcd_connection_and_watch W s = (ok tt, s') /\
    history s' = (history s0 ++ evs)%list /\
    match open_answer W s0 with
    | inl _ =>
        steps evs = [Opened] /\
        q_route_spec s' = q_route_spec s0 /\
        etcd s' = None /\ watch_id s' = None
    | inr c =>
        match fetched W (record (Log DEBUG "Initial data read") (opened s0 c)) with
        | inl _ =>
            steps evs = [Opened; Loaded; Watched] /\
            q_route_spec s' = q_route_spec s0
        | inr rs =>
            steps evs = [Opened; Loaded; Published; Watched] /\
            q_route_spec s' = (q_route_spec s0 ++ [rs])%list
        end /\
        match watch_answer W (snd (initial_load W (opened s0 c))) c with
        | inl _ => etcd s' = None /\ watch_id s' = None
        | inr w => etcd s' = Some c /\ watch_id s' = Some w
        end
    end.
Proof.
  intros Hg. rewrite establish_eq, Hg, open_client_eq.
  destruct (open_answer W s0) as [e | c].
  - eexists _, _. split; [reflexivity |]. split; [history_suffix |].
    cbn. auto.
  - rewrite initial_load_eq, load_eq.
    destruct (fetched W (record (Log DEBUG "Initial data read") (opened s0 c)))
      as [e | rs]; cbv beta iota; cbn [snd]; rewrite register_watch_eq; cbn;
      match goal with
      | |- context [watch_answer W ?st c] => destruct (watch_answer W st c)
      end;
      eexists _, _; (split; [reflexivity |]);
      (split; [history_suffix | cbn; auto]).
Qed.

Lemma connection_attempt_steps_witness :
  exists s',
    establish_etcd_connection_and_watch (healthy scenario_doc 0)
      (init "localhost" 2379) = (ok tt, s') /\
    steps (history s') = [Opened; Loaded; Published; Watched] /\
    watch_id s' = Some 0.
Proof.
  destruct (connection_attempt_steps (healthy scenario_doc 0)
              (init "localhost" 2379) (init "localhost" 2379) eq_refl)
    as [s' [evs [He [Hh [[Hs _] [_ Hw]]]]]].
  exists s'. split; [exact He |]. split; [| exact Hw].
  rewrite Hh. exact Hs.
Defined.

(** C5 (as stated) fails when the initial load fails: with an etcd that
    accepts the connection and the watch but raises on the read of the
    document, the attempt ends with the watch 0 registered and nothing
    published, its steps being open, fetch, register. *)
Lemma watch_follows_a_publication_fails : ~ watch_follows_a_publication.
Proof.
  intros H.
  destruct (H (unreadable 0) (init "localhost" 2379) (init "localhost" 2379)
              eq_refl) as [evs [Hh Hs]].
  - vm_compute. discriminate.
  - vm_compute in Hh. subst evs. vm_compute in Hs. discriminate Hs.
Qed.

(** C6 (as amended).  An exception from opening the client or from the
    registration of the watch makes
    [establish_etcd_connection_and_watch] return with the client and the
    watch handle cleared.  An exception raised inside the initial load
    does not clear them by itself: the load absorbs it and the watch is
    registered on the client just opened, so that both handles end set
    when that registration returns, and cleared only when it raises in
    its turn. *)
Theorem connecting_failure_handles (W : world) (s s0 : Romana) :
  reconnect_needed W s = (ok true, s0) ->
  exists s',
    establish_etcd_connection_and_watch W s = (ok tt, s') /\
    (forall e, fst (open_client W s0) = raise e ->
               etcd s' = None /\ watch_id s' = None) /\
    (forall s1 s2 e,
        open_client W s0 = (ok tt, s1) ->
        initial_load W s1 = (ok tt, s2) ->
        fst (register_watch W s2) = raise e ->
        etcd s' = None /\ watch_id s' = None) /\
    (forall s1 s2 e,
        open_client W s0 = (ok tt, s1) ->
        fst (load_body W (record (Log DEBUG "Initial data read") s1)) = raise e ->
        initial_load W s1 = (ok tt, s2) ->
        exists c,
          etcd s1 = Some c /\
          match watch_answer W s2 c with
          | inr w => etcd s' = Some c /\ watch_id s' = Some w
          | inl _ => etcd s' = None /\ watch_id s' = None
          end).
Proof.
  intros Hg. rewrite establish_eq, Hg, open_client_eq.
  destruct (open_answer W s0) as [e0 | c].
  - eexists. split; [reflexivity |].
    split; [intros; cbn; auto |].
    split; intros; discriminate.
  - destruct (initial_load_returns W (opened s0 c)) as [s2 [Hl [He2 Hw2]]].
    rewrite Hl. cbv beta iota. rewrite register_watch_eq, He2.
    cbn [etcd opened set_etcd]. cbv zeta.
    destruct (watch_answer W s2 c) as [e3 | w] eqn:Hwa.
    + eexists. split; [reflexivity |].
      split; [intros e H; discriminate H |].
      split; [intros; cbn; auto |].
      intros s1' s2' e H1 _ H2.
      inversion H1; subst s1'. rewrite Hl in H2. inversion H2; subst s2'.
      exists c. split; [reflexivity |]. rewrite Hwa. cbn. auto.
    + eexists. split; [reflexivity |].
      split; [intros e H; discriminate H |].
      split.
      * intros s1' s2' e H1 H2 H3.
        inversion H1; subst s1'. rewrite Hl in H2. inversion H2; subst s2'.
        rewrite register_watch_eq, He2 in H3. cbn [etcd opened set_etcd] in H3.
        cbv zeta in H3. rewrite Hwa in H3. discriminate H3.
      * intros s1' s2' e H1 _ H2.
        inversion H1; subst s1'. rewrite Hl in H2. inversion H2; subst s2'.
        exists c. split; [reflexivity |]. rewrite Hwa. cbn.
        rewrite He2. auto.
Qed.

Lemma connecting_failure_handles_witness :
  (etcd (snd (establish_etcd_connection_and_watch unreachable
                (init "localhost" 2379))) = None /\
   watch_id (snd (establish_etcd_connection_and_watch unreachable
                    (init "localhost" 2379))) = None) /\
  (etcd (snd (establish_etcd_connection_and_watch (unreadable 0)
                (init "localhost" 2379))) = Some 1%nat /\
   watch_id (snd (establish_etcd_connection_and_watch (unreadable 0)
                    (init "localhost" 2379))) = Some 0).
Proof.
  split.
  - destruct (connecting_failure_handles unreachable
                (init "localhost" 2379) (init "localhost" 2379) eq_refl)
      as [s' [He [Hopen _]]].
    rewrite He. exact (Hopen (EtcdError 14) eq_refl).
  - destruct (connecting_failure_handles (unreadable 0)
                (init "localhost" 2379) (init "localhost" 2379) eq_refl)
      as [s' [He [_ [_ Hload]]]].
    rewrite He.
    destruct (Hload _ _ (EtcdError 14) eq_refl eq_refl eq_refl) as [c [Hc Hw]].
    inversion Hc; subst c. exact Hw.
Defined.

(** C6 (as stated) fails when the exception is raised inside the initial
    load: etcd accepts the connection and the watch but the read of the
    document raises, and the object keeps client 1 and watch 0. *)
Lemma connecting_exception_clears_handles_fails :
  ~ connecting_exception_clears_handles.
Proof.
  intros H.
  destruct (H (unreadable 0) (init "localhost" 2379) (init "localhost" 2379)
              eq_refl) as [He _].
  - apply (load_raises (unreadable 0) (init "localhost" 2379)
             (opened (init "localhost" 2379) 1%nat) (EtcdError 14));
      reflexivity.
  - vm_compute in He. discriminate He.
Qed.

(** C7.  With a client, a status call that succeeds and a watch handle,
    [establish_etcd_connection_and_watch] only probes the status: it
    returns the object as it was, with that one probe recorded; no
    client is opened, no document fetched, nothing published, no watch
    registered. *)
Theorem healthy_connection_is_kept (W : world) (s : Romana) (c : client) (w : Z) :
  etcd s = Some c ->
  etcd_status W (history s) c = ok tt ->
  watch_id s = Some w ->
  establish_etcd_connection_and_watch W s = (ok tt, record (Status c) s) /\
  etcd (record (Status c) s) = etcd s /\
  watch_id (record (Status c) s) = watch_id s /\
  q_route_spec (record (Status c) s) = q_route_spec s /\
  steps [Status c] = [].
Proof.
  intros Hc Hs Hw.
  rewrite establish_eq, reconnect_needed_eq, Hc, Hs, Hw. cbn. auto.
Qed.

Lemma healthy_connection_is_kept_witness :
  establish_etcd_connection_and_watch (healthy scenario_doc 0) (watching 1%nat 0)
  = (ok tt, record (Status 1%nat) (watching 1%nat 0)).
Proof.
  exact (proj1 (healthy_connection_is_kept (healthy scenario_doc 0)
                  (watching 1%nat 0) 1%nat 0 eq_refl eq_refl eq_refl)).
Defined.

(** C10.  [etcd_check_status] returns a boolean for every object and
    every etcd, and never raises: [True] exactly when there is a client
    whose status call succeeds, hence [False] without a client and
    [False] when the status call raises.  The handles are not touched. *)
Theorem etcd_check_status_total (W : world) (s : Romana) :
  exists b s',
    etcd_check_status W s = (ok b, s') /\
    (b = true <-> exists c, etcd s = Some c /\ etcd_status W (history s) c = ok tt) /\
    (etcd s = None -> b = false) /\
    (forall c e, etcd s = Some c -> etcd_status W (history s) c = raise e ->
                 b = false) /\
    etcd s' = etcd s /\ watch_id s' = watch_id s.
Proof.
  rewrite etcd_check_status_eq.
  destruct (etcd s) as [c |] eqn:Ec.
  - destruct (etcd_status W (history s) c) as [e | []] eqn:Es.
    + exists false. eexists. split; [reflexivity |].
      split; [| split; [| split]].
      * split; [discriminate |].
        intros [c' [Hc' Hs']]. inversion Hc'; subst c'.
        rewrite Es in Hs'. discriminate Hs'.
      * discriminate.
      * reflexivity.
      * cbn. auto.
    + exists true. eexists. split; [reflexivity |].
      split; [| split; [| split]].
      * split; [| reflexivity]. intros _. now exists c.
      * discriminate.
      * intros c' e Hc' Hs'. inversion Hc'; subst c'.
        rewrite Es in Hs'. discriminate Hs'.
      * cbn. auto.
  - exists false. eexists. split; [reflexivity |].
    split; [| split; [| split]].
    + split; [discriminate |]. intros [c [Hc _]]. discriminate Hc.
    + reflexivity.
    + discriminate.
    + cbn. auto.
Qed.

(** ** Arguments *)

Lemma port_test (port : Z) :
  negb ((0 <? port) && (port <? 65535)) = true <-> port < 1 \/ 65534 < port.
Proof.
  rewrite negb_true_iff, andb_false_iff, !Z.ltb_ge. lia.
Qed.

(** C8.  With the address ["localhost"], [check_arguments] raises if
    and only if the port is below 1 or above 65534; what it raises then
    is the [ArgsError] of line 195, and for every port from 1 to 65534
    it returns normally without calling the address check. *)
Theorem check_arguments_localhost (W : world) (addr : string) (port : Z) :
  addr = "localhost" ->
  (raises (check_arguments W addr port) <-> port < 1 \/ 65534 < port) /\
  (port < 1 \/ 65534 < port ->
   check_arguments W addr port = raise (ArgsError (invalid_port_message port))) /\
  (1 <= port <= 65534 -> check_arguments W addr port = ok tt).
Proof.
  intros ->. unfold check_arguments.
  destruct (negb ((0 <? port) && (port <? 65535))) eqn:E.
  - apply port_test in E. split; [| split].
    + split; [intros _; exact E | intros _; eexists; reflexivity].
    + reflexivity.
    + lia.
  - assert (Hin : 1 <= port <= 65534).
    { destruct (Z_le_gt_dec 1 port) as [H1 | H1];
        [destruct (Z_le_gt_dec port 65534) as [H2 | H2]; [lia |] |];
        assert (Hout : port < 1 \/ 65534 < port) by lia;
        apply port_test in Hout; rewrite Hout in E; discriminate E. }
    cbn. split; [| split].
    + split; [intros [e He]; discriminate He | lia].
    + lia.
    + reflexivity.
Qed.

Lemma check_arguments_localhost_witness :
  check_arguments unreachable "localhost" 2379 = ok tt /\
  raises (check_arguments unreachable "localhost" 65535).
Proof.
  destruct (check_arguments_localhost unreachable "localhost" 2379 eq_refl)
    as [_ [_ Hok]].
  destruct (check_arguments_localhost unreachable "localhost" 65535 eq_refl)
    as [Hiff _].
  split; [apply Hok; lia | apply Hiff; lia].
Defined.

(** ** Stopping *)

Section Stop.

Variable W : world.

Lemma stop_eq (s : Romana) :
  stop W s
  = match watch_id s with
    | Some w =>
        if w =? 0 then (ok tt, stopped s)
        else
          match etcd s with
          | None => (raise AttributeError, s)
          | Some c =>
              match etcd_cancel_watch W (history s) c w with
              | inl e => (raise e, record (CancelWatch c w) s)
              | inr _ => (ok tt, stopped (record (CancelWatch c w) s))
              end
          end
    | None => (ok tt, stopped s)
    end.
Proof.
  unfold stop, stopped, truthy_watch_id. unfold_py.
  destruct (watch_id s) as [w |]; cbn; [| reflexivity].
  destruct (w =? 0); cbn; [reflexivity |].
  destruct (etcd s) as [c |]; cbn; [| reflexivity].
  destruct (etcd_cancel_watch W (history s) c w); reflexivity.
Qed.

(** A watch other than 0 is cancelled before the flag is cleared and
    the thread joined. *)
Lemma stop_cancels_nonzero_watch (s : Romana) (c : client) (w : Z) :
  etcd s = Some c -> watch_id s = Some w -> w <> 0 ->
  etcd_cancel_watch W (history s) c w = ok tt ->
  exists s',
    stop W s = (ok tt, s') /\
    keep_running s' = false /\
    history s'
    = (history s ++
         [CancelWatch c w;
          Log DEBUG "Sending stop signal to etcd watcher thread";
          ThreadJoin;
          Log INFO "Romana watcher plugin: Stopped"])%list.
Proof.
  intros Hc Hw Hnz Hcancel. rewrite stop_eq, Hw, Hc, Hcancel.
  apply Z.eqb_neq in Hnz. rewrite Hnz.
  eexists. split; [reflexivity |]. split; [reflexivity | history_suffix].
Qed.

(** When the cancellation raises, [stop] raises too: the flag stays
    set and the thread is not joined. *)
Lemma stop_raises_with_cancel (s : Romana) (c : client) (w : Z) (e : exn) :
  etcd s = Some c -> watch_id s = Some w -> w <> 0 ->
  etcd_cancel_watch W (history s) c w = raise e ->
  exists s',
    stop W s = (raise e, s') /\
    keep_running s' = keep_running s /\
    history s' = (history s ++ [CancelWatch c w])%list.
Proof.
  intros Hc Hw Hnz Hcancel. rewrite stop_eq, Hw, Hc, Hcancel.
  apply Z.eqb_neq in Hnz. rewrite Hnz.
  eexists. split; [reflexivity |]. split; reflexivity.
Qed.

(** The loop of [watch_etcd] ends at its next test once the flag is
    cleared. *)
Lemma wait_while_connected_stopped (fuel : nat) (s : Romana) :
  keep_running s = false ->
  exists s',
    wait_while_connected W (S fuel) s = (ok (Some tt), s') /\
    keep_running s' = false.
Proof.
  intros Hk. cbn [wait_while_connected]. unfold bind at 1.
  rewrite etcd_check_status_eq.
  destruct (etcd s) as [c |].
  - destruct (etcd_status W (history s) c) as [e | u]; cbn.
    + eexists. split; [reflexivity | exact Hk].
    + rewrite Hk. eexists. split; [reflexivity | exact Hk].
  - cbn. eexists. split; [reflexivity | exact Hk].
Qed.

Lemma watch_etcd_stopped (fuel : nat) (s : Romana) :
  keep_running s = false ->
  watch_etcd W (S fuel) s = (ok (Some tt), s).
Proof.
  intros Hk. cbn [watch_etcd]. unfold bind, gets. now rewrite Hk.
Qed.

(** Each turn of [watch_etcd] starts from cleared handles, so the
    condition of line 102 holds and a new client is opened. *)
Lemma watch_etcd_turn_reconnects (s : Romana) :
  reconnect_needed W (set_watch_id None (set_etcd None s))
  = (ok true, set_watch_id None (set_etcd None s)).
Proof.
  now rewrite reconnect_needed_eq.
Qed.

End Stop.

(** C9, the case the code misses.  The watch id 0 is false in the test
    of line 165: with a client and the watch 0 registered, [stop] clears
    the flag and joins the thread, but records no cancellation of the
    watch. *)
Theorem stop_skips_watch_zero (W : world) (s : Romana) (c : client) :
  etcd s = Some c ->
  watch_id s = Some 0 ->
  stop W s = (ok tt, stopped s) /\
  keep_running (stopped s) = false /\
  history (stopped s)
  = (history s ++
       [Log DEBUG "Sending stop signal to etcd watcher thread";
        ThreadJoin;
        Log INFO "Romana watcher plugin: Stopped"])%list.
Proof.
  intros Hc Hw. rewrite stop_eq, Hw. cbn.
  split; [reflexivity |]. split; [reflexivity |].
  repeat rewrite <- app_assoc. reflexivity.
Qed.

Lemma stop_skips_watch_zero_witness :
  stop (healthy scenario_doc 0) (watching 1%nat 0)
  = (ok tt, stopped (watching 1%nat 0)).
Proof.
  exact (proj1 (stop_skips_watch_zero (healthy scenario_doc 0)
                  (watching 1%nat 0) 1%nat eq_refl eq_refl)).
Defined.

(** * Further properties of the code *)

(** ** Loads that succeed, and the callback *)

(** When every stage of a load succeeds, the load puts exactly one route
    spec on the queue, at its end: the one the route spec check left.
    The events added are the fetch and then the publication, and the
    client, the watch handle and the flag are as before. *)
Theorem successful_load_publishes_once (W : world) (s : Romana) (c : client)
        (v : option string) (d : json) (rs checked : route_spec) :
  etcd s = Some c ->
  etcd_get W (history s) c (key s) = ok v ->
  loads W v = ok d ->
  build_route_spec d = ok rs ->
  parse_route_spec_config W rs = ok checked ->
  exists s',
    load_topology_send_route_spec W s = (ok tt, s') /\
    q_route_spec s' = (q_route_spec s ++ [checked])%list /\
    history s' = (history s ++ [Get c (key s); Put checked])%list /\
    etcd s' = etcd s /\ watch_id s' = watch_id s /\
    keep_running s' = keep_running s.
Proof.
  intros Hc Hv Hd Hb Hp. rewrite load_eq. unfold fetched, fetch_recorded.
  rewrite Hc, Hv. cbn. rewrite Hd. cbn. rewrite Hb. cbn. rewrite Hp.
  eexists. split; [reflexivity |]. cbn. rewrite <- app_assoc. auto 6.
Qed.

Lemma successful_load_publishes_once_witness :
  q_route_spec
    (snd (load_topology_send_route_spec (healthy scenario_doc 0)
            (watching 1%nat 0)))
  = [[(JStr "10.0.0.0/24", [JStr "10.0.0.1"; JStr "10.0.0.2"])]].
Proof.
  destruct (successful_load_publishes_once (healthy scenario_doc 0)
              (watching 1%nat 0) 1%nat (Some "document") scenario_doc
              [(JStr "10.0.0.0/24", [JStr "10.0.0.1"; JStr "10.0.0.2"])]
              [(JStr "10.0.0.0/24", [JStr "10.0.0.1"; JStr "10.0.0.2"])]
              eq_refl eq_refl eq_refl eq_refl eq_refl)
    as [s' [He [Hq _]]].
  rewrite He. exact Hq.
Defined.

(** [event_callback] never raises.  It logs the change first, leaves
    the client, the watch handle and the flag as they were, and either
    leaves the queue as it was or adds one route spec at its end. *)
Theorem event_callback_absorbs (W : world) (s : Romana) :
  exists s' evs,
    event_callback W s = (ok tt, s') /\
    history s'
    = (history s ++
         Log INFO "Romana watcher plugin: Detected topology change in Romana topology data"
         :: evs)%list /\
    etcd s' = etcd s /\ watch_id s' = watch_id s /\
    keep_running s' = keep_running s /\
    (q_route_spec s' = q_route_spec s \/
     exists rs, q_route_spec s' = (q_route_spec s ++ [rs])%list).
Proof.
  unfold event_callback, bind, logging, modify. rewrite load_eq.
  set (s1 := record (Log INFO _) s).
  destruct (fetch_recorded_fields s1) as [Hq [He [Hw Hk]]].
  assert (Hh : exists evs0, history (fetch_recorded s1)
                            = (history s1 ++ evs0)%list).
  { unfold fetch_recorded. destruct (etcd s1).
    - eexists. reflexivity.
    - exists []. now rewrite app_nil_r. }
  destruct Hh as [evs0 Hh].
  destruct (fetched W s1) as [e | rs].
  - eexists _, _. split; [reflexivity |]. cbn.
    rewrite Hh, Hq, He, Hw, Hk. cbn. repeat rewrite <- app_assoc. cbn.
    split; [reflexivity |]. auto.
  - eexists _, _. split; [reflexivity |]. cbn.
    rewrite Hh, Hq, He, Hw, Hk. cbn. repeat rewrite <- app_assoc. cbn.
    split; [reflexivity |]. repeat split. right. now exists rs.
Qed.

(** When etcd holds nothing under the key, [get] returns [None] and the
    load ends in the [TypeError] of [json.loads(None)], whatever the
    decoder would do with a text: nothing is published. *)
Theorem absent_key_is_not_published (W : world) (s : Romana) (c : client) :
  etcd s = Some c ->
  etcd_get W (history s) c (key s) = ok None ->
  load_body W s = (raise TypeError, record (Get c (key s)) s) /\
  load_topology_send_route_spec W s
  = (ok tt,
     record (Log ERROR "Cannot load Romana topology data")
       (record (Get c (key s)) s)).
Proof.
  intros Hc Hv. rewrite load_eq, load_body_eq. unfold fetched, fetch_recorded.
  rewrite Hc, Hv. cbn. split; reflexivity.
Qed.

Lemma absent_key_is_not_published_witness :
  let W := {| etcd3_client := fun _ _ _ _ => ok 1%nat;
              etcd_get := fun _ _ _ => ok None;
              etcd_status := fun _ _ => ok tt;
              etcd_add_watch_callback := fun _ _ _ => ok 0;
              etcd_cancel_watch := fun _ _ _ => ok tt;
              json_loads := fun _ => ok scenario_doc;
              parse_route_spec_config := fun rs => ok rs;
              ip_check := fun _ => ok tt |} in
  q_route_spec (snd (load_topology_send_route_spec W (watching 1%nat 0))) = [].
Proof.
  intros W.
  rewrite (proj2 (absent_key_is_not_published W (watching 1%nat 0) 1%nat
                    eq_refl eq_refl)).
  reflexivity.
Defined.

(** A document whose [networks] object is empty is no error: the fold
    gives the empty route spec, and the load publishes what the route
    spec check makes of it. *)
Theorem empty_networks_publish_empty_spec (W : world) (s : Romana) (d : json)
        (checked : route_spec) :
  field "networks" d = Some (JObj []) ->
  build_route_spec d = ok [] /\
  (serves W s d ->
   parse_route_spec_config W [] = ok checked ->
   q_route_spec (snd (load_topology_send_route_spec W s))
   = (q_route_spec s ++ [checked])%list).
Proof.
  intros Hn.
  assert (Hb : build_route_spec d = ok []).
  { unfold build_route_spec. now rewrite (field_getitem _ _ _ Hn). }
  split; [exact Hb |].
  intros Hs Hc. rewrite load_eq, (serves_fetched W s d Hs), Hb. cbn.
  rewrite Hc. cbn. now rewrite (proj1 (fetch_recorded_fields s)).
Qed.

Lemma empty_networks_publish_empty_spec_witness :
  q_route_spec
    (snd (load_topology_send_route_spec
            (healthy (JObj [("networks", JObj [])]) 0) (watching 1%nat 0)))
  = [[]].
Proof.
  refine (proj2 (empty_networks_publish_empty_spec
                   (healthy (JObj [("networks", JObj [])]) 0)
                   (watching 1%nat 0) (JObj [("networks", JObj [])]) []
                   eq_refl) _ eq_refl).
  exists 1%nat, (Some "document"). repeat split; reflexivity.
Defined.

(** ** The fold on arbitrary documents *)

Section Fold.

Lemma mapM_raises {A B} (f : A -> result B) (l : list A) (a : A) :
  In a l -> raises (f a) -> raises (mapM f l).
Proof.
  intros Hin Hbad. induction l as [| x rest IH]; simpl.
  - contradiction.
  - destruct Hin as [-> | Hin].
    + now apply rbind_raises_l.
    + destruct (f x) as [e | b]; simpl; [now exists e |].
      apply rbind_raises_l. now apply IH.
Qed.

Lemma add_network_host_without_ip (rs : route_spec) (item : string * json)
      (g : json) (hs : list json) (h : json) :
  field "groups" (snd item) = Some g ->
  field "hosts" g = Some (JArr hs) ->
  In h hs -> has_field "ip" h = false ->
  raises (add_network rs item).
Proof.
  intros Hg Hh Hin Hip. unfold add_network.
  rewrite (field_getitem _ _ _ Hg). simpl.
  destruct (py_getitem g "cidr") as [e | c]; simpl; [now exists e |].
  apply rbind_raises_l. unfold host_ips.
  rewrite (field_getitem _ _ _ Hh). simpl.
  apply (mapM_raises _ hs h Hin). now apply missing_field_raises.
Qed.

Lemma py_eqb_hashable_refl (k : json) :
  py_hashable k = true -> py_eqb k k = true.
Proof.
  destruct k as [| [|] | n | x | l | items]; simpl; try discriminate;
    intros _; try reflexivity.
  - apply Z.eqb_refl.
  - apply String.eqb_refl.
Qed.

(** Two keys equal to a third are equal to each other. *)
Lemma py_eqb_common (a b c : json) :
  py_eqb a b = true -> py_eqb a c = true -> py_eqb b c = true.
Proof.
  destruct a as [| [|] | n | x | l | items];
    destruct b as [| [|] | n' | x' | l' | items'];
    cbn [py_eqb as_number]; try discriminate;
    destruct c as [| [|] | n'' | x'' | l'' | items''];
    cbn [py_eqb as_number]; try discriminate; try reflexivity;
    rewrite ?Z.eqb_eq, ?String.eqb_eq; intros; subst; try reflexivity;
    try lia; try discriminate.
Qed.

Lemma rs_lookup_store_same (k : json) (v : list json) (rs : route_spec) :
  py_hashable k = true -> rs_lookup k (rs_store k v rs) = Some v.
Proof.
  intros Hk. induction rs as [| [k' v'] rest IH]; simpl.
  - now rewrite py_eqb_hashable_refl.
  - destruct (py_eqb k' k) eqn:E; simpl; now rewrite E.
Qed.

Lemma rs_lookup_store_other (k1 k2 : json) (v : list json) (rs : route_spec) :
  py_eqb k1 k2 = false ->
  rs_lookup k2 (rs_store k1 v rs) = rs_lookup k2 rs.
Proof.
  intros Hne. induction rs as [| [k' v'] rest IH]; simpl.
  - now rewrite Hne.
  - destruct (py_eqb k' k1) eqn:E1; simpl.
    + destruct (py_eqb k' k2) eqn:E2; [| reflexivity].
      rewrite (py_eqb_common k' k1 k2 E1 E2) in Hne. discriminate Hne.
    + now rewrite IH.
Qed.

Lemma rs_keys_store_any (k' k : json) (v : list json) (rs : route_spec) :
  In k' (rs_keys (rs_store k v rs)) -> k' = k \/ In k' (rs_keys rs).
Proof.
  unfold rs_keys. induction rs as [| [k0 v0] rest IH]; simpl.
  - intuition auto.
  - destruct (py_eqb k0 k); simpl; intuition auto.
Qed.

Lemma rs_store_not_found (k : json) (v : list json) (rs : route_spec) :
  (forall k', In k' (rs_keys rs) -> py_eqb k' k = false) ->
  rs_store k v rs = (rs ++ [(k, v)])%list.
Proof.
  unfold rs_keys. induction rs as [| [k0 v0] rest IH]; simpl; intros H.
  - reflexivity.
  - rewrite (H k0) by now left. rewrite IH; [reflexivity |].
    intros k' Hin. apply H. now right.
Qed.

Lemma distinct_keys_store (k : json) (v : list json) (rs : route_spec) :
  distinct_keys rs -> distinct_keys (rs_store k v rs).
Proof.
  induction rs as [| [k0 v0] rest IH]; simpl.
  - intros _. split; [intros k' [] | exact I].
  - intros [Hhead Hrest].
    destruct (py_eqb k0 k) eqn:E; simpl.
    + split; assumption.
    + split; [| now apply IH].
      intros k' Hin. apply rs_keys_store_any in Hin.
      destruct Hin as [-> | Hin]; [exact E | now apply Hhead].
Qed.

Lemma rs_store_length (k : json) (v : list json) (rs : route_spec) :
  (List.length (rs_store k v rs) <= S (List.length rs))%nat.
Proof.
  induction rs as [| [k0 v0] rest IH]; simpl.
  - lia.
  - destruct (py_eqb k0 k); simpl; lia.
Qed.

Lemma add_network_store (rs rs' : route_spec) (item : string * json) :
  add_network rs item = ok rs' ->
  exists k v, py_hashable k = true /\ rs' = rs_store k v rs.
Proof.
  unfold add_network, rs_setitem.
  destruct (py_getitem (snd item) "groups") as [e | g]; simpl; [discriminate |].
  destruct (py_getitem g "cidr") as [e | c]; simpl; [discriminate |].
  destruct (host_ips g) as [e | hosts]; simpl; [discriminate |].
  destruct (py_hashable c) eqn:Hc; [| discriminate].
  intros H. inversion H. now exists c, hosts.
Qed.

Lemma add_networks_invariant (items : list (string * json)) (rs rs' : route_spec) :
  add_networks rs items = ok rs' ->
  distinct_keys rs ->
  Forall (fun k => py_hashable k = true) (rs_keys rs) ->
  distinct_keys rs' /\
  Forall (fun k => py_hashable k = true) (rs_keys rs') /\
  (List.length rs' <= List.length rs + List.length items)%nat.
Proof.
  revert rs. induction items as [| item rest IH]; simpl; intros rs H Hd Hh.
  - inversion H; subst. split; [assumption |]. split; [assumption | lia].
  - destruct (add_network rs item) as [e | rs1] eqn:E; simpl in H;
      [discriminate |].
    destruct (add_network_store rs rs1 item E) as [k [v [Hk ->]]].
    destruct (IH (rs_store k v rs) H) as [H1 [H2 H3]].
    + now apply distinct_keys_store.
    + apply Forall_forall. intros k' Hin.
      apply rs_keys_store_any in Hin. destruct Hin as [-> | Hin];
        [exact Hk |].
      rewrite Forall_forall in Hh. now apply Hh.
    + split; [assumption |]. split; [assumption |].
      pose proof (rs_store_length k v rs). lia.
Qed.

Lemma add_network_name (rs : route_spec) (n1 n2 : string) (net_data : json) :
  add_network rs (n1, net_data) = add_network rs (n2, net_data).
Proof. reflexivity. Qed.

Lemma add_networks_names (items items' : list (string * json)) (rs : route_spec) :
  map snd items = map snd items' ->
  add_networks rs items = add_networks rs items'.
Proof.
  revert items' rs.
  induction items as [| [n1 d1] rest IH]; intros [| [n2 d2] rest'] rs H;
    simpl in H; try discriminate; [reflexivity |].
  inversion H; subst. simpl.
  rewrite (add_network_name rs n1 n2 d2).
  destruct (add_network rs (n2, d2)) as [e | rs1]; simpl; [reflexivity |].
  now apply IH.
Qed.

Lemma py_getitem_exception (v : json) (k : string) (e : exn) :
  py_getitem v k = raise e -> e = TypeError \/ e = KeyError k.
Proof.
  unfold py_getitem. destruct v as [| b | n | x | l | items];
    try (intros H; inversion H; now left).
  destruct (dict_get k items); intros H; inversion H. now right.
Qed.

Lemma mapM_ip_exception (l : list json) (e : exn) :
  mapM (fun h => py_getitem h "ip") l = raise e ->
  e = TypeError \/ e = KeyError "ip".
Proof.
  induction l as [| h rest IH]; simpl; [discriminate |].
  destruct (py_getitem h "ip") as [e1 | ip] eqn:E; simpl.
  - intros H. inversion H; subst. now apply py_getitem_exception in E.
  - destruct (mapM (fun h0 => py_getitem h0 "ip") rest) as [e2 | ips];
      simpl; [| discriminate].
    intros H. inversion H; subst. now apply IH.
Qed.

Lemma add_network_exception (rs : route_spec) (item : string * json) (e : exn) :
  add_network rs item = raise e -> fold_exception e.
Proof.
  unfold add_network, host_ips, rs_setitem, fold_exception.
  destruct (py_getitem (snd item) "groups") as [e1 | g] eqn:Eg; simpl.
  { intros H. inversion H; subst.
    apply py_getitem_exception in Eg. destruct Eg as [-> | ->]; [now left |].
    right. right. eexists. split; [reflexivity | simpl; auto]. }
  destruct (py_getitem g "cidr") as [e2 | c] eqn:Ec; simpl.
  { intros H. inversion H; subst.
    apply py_getitem_exception in Ec. destruct Ec as [-> | ->]; [now left |].
    right. right. eexists. split; [reflexivity | simpl; auto]. }
  destruct (py_getitem g "hosts") as [e3 | hs] eqn:Eh; simpl.
  { intros H. inversion H; subst.
    apply py_getitem_exception in Eh. destruct Eh as [-> | ->]; [now left |].
    right. right. eexists. split; [reflexivity | simpl; auto]. }
  destruct (py_iter hs) as [e4 | l] eqn:Ei; simpl.
  { intros H. inversion H; subst.
    destruct hs; simpl in Ei; inversion Ei; now left. }
  destruct (mapM (fun h => py_getitem h "ip") l) as [e5 | ips] eqn:Em; simpl.
  { intros H. inversion H; subst.
    apply mapM_ip_exception in Em. destruct Em as [-> | ->]; [now left |].
    right. right. eexists. split; [reflexivity | simpl; auto 6]. }
  destruct (py_hashable c); intros H; inversion H. now left.
Qed.

Lemma add_networks_exception (items : list (string * json)) (rs : route_spec)
      (e : exn) :
  add_networks rs items = raise e -> fold_exception e.
Proof.
  revert rs. induction items as [| item rest IH]; simpl; intros rs H.
  - discriminate H.
  - destruct (add_network rs item) as [e1 | rs1] eqn:E; simpl in H.
    + inversion H; subst. now apply (add_network_exception rs item).
    + now apply (IH rs1).
Qed.

End Fold.

(** A host without [ip] field fails the whole load: the fold raises,
    and the load that reads the document publishes nothing, not even
    the networks that are complete. *)
Theorem host_without_ip_fails_whole_load (W : world) (s : Romana) (d : json)
        (items : list (string * json)) (item : string * json) (g : json)
        (hs : list json) (h : json) :
  field "networks" d = Some (JObj items) ->
  In item items ->
  field "groups" (snd item) = Some g ->
  field "hosts" g = Some (JArr hs) ->
  In h hs ->
  has_field "ip" h = false ->
  raises (build_route_spec d) /\
  (serves W s d ->
   q_route_spec (snd (load_topology_send_route_spec W s)) = q_route_spec s).
Proof.
  intros Hn Hin Hg Hh Hhin Hip.
  assert (Hb : raises (build_route_spec d)).
  { unfold build_route_spec. rewrite (field_getitem _ _ _ Hn). simpl.
    apply (add_networks_raises items item Hin).
    intros rs. now apply (add_network_host_without_ip rs item g hs h). }
  split; [exact Hb |].
  intros Hs. destruct Hb as [e He].
  rewrite load_eq, (serves_fetched W s d Hs), He. cbn.
  now rewrite (proj1 (fetch_recorded_fields s)).
Qed.

Lemma host_without_ip_fails_whole_load_witness :
  raises
    (build_route_spec
       (JObj [("networks",
               JObj [("net1",
                      JObj [("groups",
                             JObj [("cidr", JStr "10.0.0.0/24");
                                   ("hosts", JArr [JObj [("ip", JStr "10.0.0.1")]])])]);
                     ("net2",
                      JObj [("groups",
                             JObj [("cidr", JStr "10.0.1.0/24");
                                   ("hosts", JArr [JObj [("name", JStr "b")]])])])])])).
Proof.
  set (h := JObj [("name", JStr "b")]).
  set (g := JObj [("cidr", JStr "10.0.1.0/24"); ("hosts", JArr [h])]).
  set (item := ("net2", JObj [("groups", g)])).
  match goal with
  | |- raises (build_route_spec (JObj [("networks", JObj ?items)])) =>
      exact (proj1 (host_without_ip_fails_whole_load
                      (healthy JNull 0) (watching 1%nat 0)
                      (JObj [("networks", JObj items)]) items item g [h] h
                      eq_refl (or_intror (or_introl eq_refl)) eq_refl eq_refl
                      (or_introl eq_refl) eq_refl))
  end.
Defined.

(** Whatever the document, a route spec the fold returns is a dict: no
    two of its keys are equal, every key is hashable, and it has no
    more entries than the document has networks. *)
Theorem built_route_spec_is_a_dict (d : json) (rs : route_spec) :
  build_route_spec d = ok rs ->
  distinct_keys rs /\
  Forall (fun k => py_hashable k = true) (rs_keys rs) /\
  (forall items, py_getitem d "networks" = ok (JObj items) ->
                 (List.length rs <= List.length items)%nat).
Proof.
  unfold build_route_spec.
  destruct (py_getitem d "networks") as [e | nets]; simpl; [discriminate |].
  destruct (py_items nets) as [e | items] eqn:Ei; simpl; [discriminate |].
  intros H.
  destruct (add_networks_invariant items [] rs H I (Forall_nil _))
    as [H1 [H2 H3]].
  split; [assumption |]. split; [assumption |].
  intros items' Hitems. inversion Hitems; subst nets.
  simpl in Ei. inversion Ei; subst. simpl in H3. exact H3.
Qed.

Lemma built_route_spec_is_a_dict_witness :
  distinct_keys [(JStr "10.0.0.0/24", [JStr "10.0.0.2"])].
Proof.
  exact (proj1 (built_route_spec_is_a_dict shared_cidr_doc
                  [(JStr "10.0.0.0/24", [JStr "10.0.0.2"])] eq_refl)).
Defined.

(** The names of the networks, and every top-level field other than
    [networks], have no influence: two documents whose networks carry
    the same data in the same order give the same result, route spec or
    exception. *)
Theorem network_names_are_ignored (d d' : json)
        (items items' : list (string * json)) :
  field "networks" d = Some (JObj items) ->
  field "networks" d' = Some (JObj items') ->
  map snd items = map snd items' ->
  build_route_spec d = build_route_spec d'.
Proof.
  intros H H' Hsame. unfold build_route_spec.
  rewrite (field_getitem _ _ _ H), (field_getitem _ _ _ H'). simpl.
  now apply add_networks_names.
Qed.

Lemma network_names_are_ignored_witness :
  build_route_spec
    (JObj [("revision", JNum 7);
           ("networks",
            JObj [("other",
                   JObj [("groups",
                          JObj [("cidr", JStr "10.0.0.0/24");
                                ("hosts", JArr [JObj [("ip", JStr "10.0.0.1")];
                                                JObj [("ip", JStr "10.0.0.2")]])])])])])
  = build_route_spec scenario_doc.
Proof.
  match goal with
  | |- build_route_spec ?d = _ =>
      match d with
      | context [("networks", JObj ?items)] =>
          exact (network_names_are_ignored d scenario_doc items
                   [("net1",
                     JObj [("groups",
                            JObj [("cidr", JStr "10.0.0.0/24");
                                  ("hosts", JArr [JObj [("ip", JStr "10.0.0.1")];
                                                  JObj [("ip", JStr "10.0.0.2")]])])])]
                   eq_refl eq_refl eq_refl)
      end
  end.
Defined.

(** The fold raises nothing but [TypeError], [AttributeError], or the
    [KeyError] of one of the fields [networks], [groups], [cidr],
    [hosts] and [ip]. *)
Theorem build_route_spec_exceptions (d : json) (e : exn) :
  build_route_spec d = raise e -> fold_exception e.
Proof.
  unfold build_route_spec.
  destruct (py_getitem d "networks") as [e1 | nets] eqn:En; simpl.
  2: destruct (py_items nets) as [e2 | items] eqn:Ei; simpl.
  3: now apply add_networks_exception.
  all: unfold fold_exception; intros H; inversion H; subst.
  - apply py_getitem_exception in En. destruct En as [-> | ->].
    + now left.
    + right. right. eexists. split; [reflexivity | simpl; auto].
  - destruct nets; simpl in Ei; inversion Ei; right; now left.
Qed.

Lemma build_route_spec_exceptions_witness :
  fold_exception (KeyError "networks").
Proof.
  exact (build_route_spec_exceptions (JObj []) (KeyError "networks") eq_refl).
Defined.

(** [hosts] need not be a list for the comprehension of line 59: an
    empty string or an empty object gives the CIDR no hosts, while a
    string or object that is not empty, a number, a boolean or [null]
    raises [TypeError]. *)
Theorem hosts_that_are_not_a_list (g hs : json) :
  field "hosts" g = Some hs ->
  (hs = JStr "" \/ hs = JObj [] -> host_ips g = ok []) /\
  (forall c s, hs = JStr (String c s) -> host_ips g = raise TypeError) /\
  (forall kv f, hs = JObj (kv :: f) -> host_ips g = raise TypeError) /\
  (hs = JNull \/ (exists b, hs = JBool b) \/ (exists n, hs = JNum n) ->
   host_ips g = raise TypeError).
Proof.
  intros Hh. unfold host_ips. rewrite (field_getitem _ _ _ Hh). simpl.
  split; [| split; [| split]].
  - intros [-> | ->]; reflexivity.
  - intros c s ->. reflexivity.
  - intros kv f ->. reflexivity.
  - intros [-> | [[b ->] | [n ->]]]; reflexivity.
Qed.

Lemma hosts_that_are_not_a_list_witness :
  host_ips (JObj [("cidr", JStr "10.0.0.0/24"); ("hosts", JStr "")]) = ok [] /\
  host_ips (JObj [("cidr", JStr "10.0.0.0/24"); ("hosts", JStr "10.0.0.1")])
  = raise TypeError.
Proof.
  split.
  - exact (proj1 (hosts_that_are_not_a_list
                    (JObj [("cidr", JStr "10.0.0.0/24"); ("hosts", JStr "")])
                    (JStr "") eq_refl) (or_introl eq_refl)).
  - exact (proj1 (proj2 (hosts_that_are_not_a_list
                           (JObj [("cidr", JStr "10.0.0.0/24");
                                  ("hosts", JStr "10.0.0.1")])
                           (JStr "10.0.0.1") eq_refl)) _ _ eq_refl).
Defined.

(** Line 60, [route_spec[cidr] = hosts]: a list or object as CIDR
    raises [TypeError]; otherwise the CIDR then maps to these hosts, the
    value of every key that differs from it is as before, and the
    route spec grows by at most one entry. *)
Theorem rs_setitem_round_trip (rs : route_spec) (k : json) (v : list json) :
  (py_hashable k = false -> rs_setitem rs k v = raise TypeError) /\
  (forall rs',
      rs_setitem rs k v = ok rs' ->
      rs_lookup k rs' = Some v /\
      (forall k2, py_eqb k k2 = false -> rs_lookup k2 rs' = rs_lookup k2 rs) /\
      (List.length rs' <= S (List.length rs))%nat).
Proof.
  unfold rs_setitem. split.
  - intros ->. reflexivity.
  - intros rs'. destruct (py_hashable k) eqn:Hk; [| discriminate].
    intros H. inversion H; subst. split; [| split].
    + now apply rs_lookup_store_same.
    + intros k2 Hne. now apply rs_lookup_store_other.
    + apply rs_store_length.
Qed.

Lemma rs_setitem_round_trip_witness :
  rs_lookup (JStr "10.0.1.0/24")
    [(JStr "10.0.0.0/24", [JStr "10.0.0.1"]); (JStr "10.0.1.0/24", [])]
  = Some [].
Proof.
  exact (proj1 (proj2 (rs_setitem_round_trip
                         [(JStr "10.0.0.0/24", [JStr "10.0.0.1"])]
                         (JStr "10.0.1.0/24") []) _ eq_refl)).
Defined.

(** ** Connecting, again *)

(** The condition of line 102 never raises and holds exactly when there
    is no client, or the status call on the client raises, or there is
    no watch id; the watch id 0 counts as a watch here.  It changes
    neither handle, and without a client it calls nothing. *)
Theorem reconnect_needed_iff (W : world) (s : Romana) :
  exists b s0,
    reconnect_needed W s = (ok b, s0) /\
    (b = true <->
     etcd s = None \/
     (exists c, etcd s = Some c /\ raises (etcd_status W (history s) c)) \/
     watch_id s = None) /\
    etcd s0 = etcd s /\ watch_id s0 = watch_id s /\
    (etcd s = None -> s0 = s).
Proof.
  rewrite reconnect_needed_eq.
  destruct (etcd s) as [c |] eqn:Ec.
  - destruct (etcd_status W (history s) c) as [e | u] eqn:Es.
    + eexists _, _. split; [reflexivity |]. cbn.
      split; [| split; [| split]]; auto; [| discriminate].
      split; [| reflexivity]. intros _. right. left.
      exists c. split; [reflexivity | now exists e].
    + eexists _, _. split; [reflexivity |]. cbn.
      split; [| split; [| split]]; auto; [| discriminate].
      destruct (watch_id s) as [w |]; split; auto; try discriminate.
      intros [H | [[c' [Hc' [e He]]] | H]]; try discriminate.
      inversion Hc'; subst c'. rewrite Es in He. discriminate He.
  - exists true, s. split; [reflexivity |].
    split; [| split; [| split]]; auto. split; auto.
Qed.

(** Connecting twice in a row: once a connection attempt has opened a
    client and registered a watch, a second call that finds the status
    call succeeding changes nothing and attempts nothing but that
    status call. *)
Theorem second_establish_is_noop (W : world) (s s0 : Romana) (c : client) (w : Z) :
  reconnect_needed W s = (ok true, s0) ->
  open_answer W s0 = ok c ->
  watch_answer W (snd (initial_load W (opened s0 c))) c = ok w ->
  exists s1,
    establish_etcd_connection_and_watch W s = (ok tt, s1) /\
    etcd s1 = Some c /\ watch_id s1 = Some w /\
    (etcd_status W (history s1) c = ok tt ->
     establish_etcd_connection_and_watch W s1 = (ok tt, record (Status c) s1)).
Proof.
  intros Hg Hopen Hwatch.
  rewrite (establish_eq W s), Hg, open_client_eq, Hopen.
  cbv beta iota delta [ok].
  destruct (initial_load_returns W (opened s0 c)) as [s2 [Hl [He2 Hw2]]].
  rewrite Hl in *. cbn [snd] in Hwatch. cbv beta iota delta [ok].
  rewrite register_watch_eq, He2. cbn [etcd opened set_etcd].
  cbv zeta. rewrite Hwatch.
  eexists. split; [reflexivity |]. cbn. rewrite He2. cbn.
  split; [reflexivity |]. split; [reflexivity |].
  intros Hs. rewrite establish_eq, reconnect_needed_eq. cbn. rewrite He2. cbn.
  cbn in Hs. rewrite Hs. reflexivity.
Qed.

Lemma second_establish_is_noop_witness :
  exists s1,
    establish_etcd_connection_and_watch (healthy scenario_doc 0)
      (init "localhost" 2379) = (ok tt, s1) /\
    establish_etcd_connection_and_watch (healthy scenario_doc 0) s1
    = (ok tt, record (Status 1%nat) s1).
Proof.
  destruct (second_establish_is_noop (healthy scenario_doc 0)
              (init "localhost" 2379) (init "localhost" 2379) 1%nat 0
              eq_refl eq_refl eq_refl) as [s1 [He [_ [_ Hn]]]].
  exists s1. split; [exact He | exact (Hn eq_refl)].
Defined.

(** A publication is not taken back: when the initial load of a
    connection attempt has published a route spec and the registration
    of the watch then raises, the route spec stays on the queue while
    the client and the watch handle are cleared. *)
Theorem publication_survives_failed_watch (W : world) (s s0 : Romana)
        (c : client) (rs : route_spec) (e : exn) :
  reconnect_needed W s = (ok true, s0) ->
  open_answer W s0 = ok c ->
  fetched W (record (Log DEBUG "Initial data read") (opened s0 c)) = ok rs ->
  watch_answer W (snd (initial_load W (opened s0 c))) c = raise e ->
  exists s',
    establish_etcd_connection_and_watch W s = (ok tt, s') /\
    q_route_spec s' = (q_route_spec s0 ++ [rs])%list /\
    etcd s' = None /\ watch_id s' = None.
Proof.
  intros Hg Hopen Hf Hwatch.
  rewrite establish_eq, Hg, open_client_eq, Hopen.
  cbv beta iota delta [ok].
  rewrite initial_load_eq, load_eq, Hf in *. cbv beta iota delta [ok].
  cbn [snd] in Hwatch.
  rewrite register_watch_eq. cbn. cbn in Hwatch. rewrite Hwatch.
  eexists. split; [reflexivity |]. cbn. auto.
Qed.

Lemma publication_survives_failed_watch_witness :
  let W := {| etcd3_client := fun _ _ _ _ => ok 1%nat;
              etcd_get := fun _ _ _ => ok (Some "document");
              etcd_status := fun _ _ => ok tt;
              etcd_add_watch_callback := fun _ _ _ => raise (EtcdError 4);
              etcd_cancel_watch := fun _ _ _ => ok tt;
              json_loads := fun _ => ok scenario_doc;
              parse_route_spec_config := fun rs => ok rs;
              ip_check := fun _ => ok tt |} in
  exists s',
    establish_etcd_connection_and_watch W (init "localhost" 2379) = (ok tt, s') /\
    q_route_spec s' = [[(JStr "10.0.0.0/24", [JStr "10.0.0.1"; JStr "10.0.0.2"])]] /\
    etcd s' = None.
Proof.
  intros W.
  destruct (publication_survives_failed_watch W
              (init "localhost" 2379) (init "localhost" 2379) 1%nat
              [(JStr "10.0.0.0/24", [JStr "10.0.0.1"; JStr "10.0.0.2"])]
              (EtcdError 4) eq_refl eq_refl eq_refl eq_refl)
    as [s' [He [Hq [Hc _]]]].
  exists s'. split; [exact He |]. split; [exact Hq | exact Hc].
Defined.

(** ** Stopping, again *)

Section StopFrom.

Variable W : world.

Lemma stop_signal_and_join_eq (started : bool) (s : Romana) :
  stop_signal_and_join started s
  = if started then (ok tt, stopped s)
    else (raise AttributeError,
          set_keep_running false
            (record (Log DEBUG "Sending stop signal to etcd watcher thread") s)).
Proof.
  unfold stop_signal_and_join, stopped. unfold_py.
  destruct started; reflexivity.
Qed.

Lemma stop_from_eq (started : bool) (s : Romana) :
  stop_from W started s
  = match watch_id s with
    | Some w =>
        if w =? 0 then stop_signal_and_join started s
        else
          match etcd s with
          | None => (raise AttributeError, s)
          | Some c =>
              match etcd_cancel_watch W (history s) c w with
              | inl e => (raise e, record (CancelWatch c w) s)
              | inr _ => stop_signal_and_join started (record (CancelWatch c w) s)
              end
          end
    | None => stop_signal_and_join started s
    end.
Proof.
  unfold stop_from, truthy_watch_id, bind, gets, ret, call, attr, throw.
  cbv beta iota delta [ok].
  destruct (watch_id s) as [w |]; [| reflexivity].
  destruct (w =? 0); [reflexivity |].
  cbv beta iota delta [ok negb].
  destruct (etcd s) as [c |]; [| reflexivity].
  unfold ret. cbv beta iota delta [ok].
  destruct (etcd_cancel_watch W (history s) c w); reflexivity.
Qed.

Lemma stop_from_started (s : Romana) : stop_from W true s = stop W s.
Proof.
  rewrite stop_from_eq, stop_eq.
  destruct (watch_id s) as [w |]; [| now rewrite stop_signal_and_join_eq].
  destruct (w =? 0); [now rewrite stop_signal_and_join_eq |].
  destruct (etcd s) as [c |]; [| reflexivity].
  destruct (etcd_cancel_watch W (history s) c w);
    [reflexivity | now rewrite stop_signal_and_join_eq].
Qed.

(** What [stop] does, by whether line 166 is passed. *)
Lemma stop_from_cases (started : bool) (s : Romana) :
  (cancel_passes W s /\
   exists evs,
     (evs = [] \/ exists c w, evs = [CancelWatch c w]) /\
     stop_from W started s
     = if started then
         (ok tt,
          record (Log INFO "Romana watcher plugin: Stopped")
            (record ThreadJoin
               (set_keep_running false
                  (record (Log DEBUG "Sending stop signal to etcd watcher thread")
                     (fold_left (fun st e => record e st) evs s)))))
       else
         (raise AttributeError,
          set_keep_running false
            (record (Log DEBUG "Sending stop signal to etcd watcher thread")
               (fold_left (fun st e => record e st) evs s)))) \/
  (~ cancel_passes W s /\
   exists e evs,
     (evs = [] \/ exists c w, evs = [CancelWatch c w]) /\
     stop_from W started s
     = (raise e, fold_left (fun st ev => record ev st) evs s)).
Proof.
  rewrite stop_from_eq. unfold cancel_passes, truthy_watch_id.
  destruct (watch_id s) as [w |] eqn:Ew.
  - destruct (w =? 0) eqn:Ez.
    + left. split; [now left |]. exists []. split; [now left |].
      rewrite stop_signal_and_join_eq. reflexivity.
    + destruct (etcd s) as [c |] eqn:Ec.
      * destruct (etcd_cancel_watch W (history s) c w) as [e | []] eqn:Ecw.
        -- right. split.
           ++ intros [H | [c' [w' [Hc' [Hw' Hok]]]]]; [discriminate H |].
              inversion Hc'; inversion Hw'; subst c' w'.
              rewrite Ecw in Hok. discriminate Hok.
           ++ exists e, [CancelWatch c w]. split; [right; eauto | reflexivity].
        -- left. split; [right; now exists c, w |].
           exists [CancelWatch c w]. split; [right; eauto |].
           rewrite stop_signal_and_join_eq. reflexivity.
      * right. split.
        -- intros [H | [c' [w' [Hc' _]]]]; discriminate.
        -- exists AttributeError, []. split; [now left | reflexivity].
  - left. split; [now left |]. exists []. split; [now left |].
    rewrite stop_signal_and_join_eq. reflexivity.
Qed.

End StopFrom.

(** [stop], for an object on which [start] has run or not.  It leaves
    the client, the watch id and the queue as they were, also after it
    has cancelled the watch.  It returns normally exactly when [start]
    has run and line 166 is passed; the flag is then cleared and the
    join is its last step but one.  When it raises, no thread has been
    joined: at line 166 ([cancel_watch] raises, or there is a watch id
    but no client) the flag is as before; at line 169, on an object on
    which [start] has not run, the [AttributeError] comes after the flag
    has been cleared. *)
Theorem stop_keeps_handles_and_queue (W : world) (started : bool) (s : Romana) :
  etcd (snd (stop_from W started s)) = etcd s /\
  watch_id (snd (stop_from W started s)) = watch_id s /\
  q_route_spec (snd (stop_from W started s)) = q_route_spec s /\
  (fst (stop_from W started s) = ok tt <->
   started = true /\ cancel_passes W s) /\
  (fst (stop_from W started s) = ok tt ->
   keep_running (snd (stop_from W started s)) = false /\
   exists evs,
     history (snd (stop_from W started s))
     = (history s ++ evs ++
          [ThreadJoin; Log INFO "Romana watcher plugin: Stopped"])%list) /\
  (raises (fst (stop_from W started s)) ->
   exists evs,
     history (snd (stop_from W started s)) = (history s ++ evs)%list /\
     ~ In ThreadJoin evs) /\
  (~ cancel_passes W s ->
   raises (fst (stop_from W started s)) /\
   keep_running (snd (stop_from W started s)) = keep_running s) /\
  (cancel_passes W s -> started = false ->
   fst (stop_from W started s) = raise AttributeError /\
   keep_running (snd (stop_from W started s)) = false) /\
  stop_from W true s = stop W s.
Proof.
  assert (Hfold : forall evs : list event,
             evs = [] \/ (exists c w, evs = [CancelWatch c w]) ->
             let s1 := fold_left (fun st e => record e st) evs s in
             etcd s1 = etcd s /\ watch_id s1 = watch_id s /\
             q_route_spec s1 = q_route_spec s /\
             keep_running s1 = keep_running s /\
             history s1 = (history s ++ evs)%list /\
             ~ In ThreadJoin evs).
  { intros evs [-> | [c [w ->]]]; cbn.
    - rewrite app_nil_r. repeat split; auto.
    - repeat split; auto. intros [H | []]. discriminate H. }
  split; [| split; [| split; [| split; [| split; [| split; [| split; [| split]]]]]]];
    try apply stop_from_started;
    destruct (stop_from_cases W started s)
      as [[Hp [evs [Hevs Heq]]] | [Hnp [e [evs [Hevs Heq]]]]];
    rewrite Heq;
    destruct (Hfold evs Hevs) as [He [Hw [Hq [Hk [Hh Hj]]]]];
    try (destruct started; cbn; assumption);
    try (cbn; assumption).
  - (* returns normally iff *)
    destruct started; cbn; split; auto; try discriminate.
    intros [H _]. discriminate H.
  - cbn. split; [intros H; discriminate H | intros [_ H]; contradiction].
  - (* normal return *)
    destruct started; cbn; [| discriminate].
    intros _. split; [reflexivity |].
    exists (evs ++ [Log DEBUG "Sending stop signal to etcd watcher thread"])%list.
    rewrite Hh. repeat rewrite <- app_assoc. reflexivity.
  - cbn. discriminate.
  - (* raises: no join *)
    destruct started; cbn.
    + intros [e He']. discriminate He'.
    + intros _.
      exists (evs ++ [Log DEBUG "Sending stop signal to etcd watcher thread"])%list.
      rewrite Hh, <- app_assoc. split; [reflexivity |].
      intros Hin. apply in_app_or in Hin. destruct Hin as [Hin | [Hin | []]].
      * contradiction.
      * discriminate Hin.
  - cbn. intros _. exists evs. split; assumption.
  - intros Hnp. contradiction.
  - cbn. intros _. split; [now exists e | assumption].
  - intros _ ->. cbn. auto.
  - intros Hp. contradiction.
Qed.

Lemma stop_keeps_handles_and_queue_witness :
  fst (stop_from (healthy scenario_doc 0) false (init "localhost" 2379))
  = raise AttributeError /\
  keep_running
    (snd (stop_from (healthy scenario_doc 0) false (init "localhost" 2379)))
  = false.
Proof.
  destruct (stop_keeps_handles_and_queue (healthy scenario_doc 0) false
              (init "localhost" 2379))
    as [_ [_ [_ [_ [_ [_ [_ [H _]]]]]]]].
  apply H; [left; reflexivity | reflexivity].
Defined.

(** ** Arguments, again *)

(** The port is checked before the address: a port below 1 or above
    65534 raises the [ArgsError] of line 195 for every address, without
    the address being looked at.  With a port in range and an address
    other than ["localhost"] (compared as written, capitals included)
    the outcome is that of the address check. *)
Theorem check_arguments_port_then_address (W : world) (addr : string) (port : Z) :
  (port < 1 \/ 65534 < port ->
   check_arguments W addr port = raise (ArgsError (invalid_port_message port))) /\
  (1 <= port <= 65534 -> addr <> "localhost" ->
   check_arguments W addr port = ip_check W addr).
Proof.
  unfold check_arguments. split.
  - intros H. apply port_test in H. now rewrite H.
  - intros Hin Hne.
    destruct (negb ((0 <? port) && (port <? 65535))) eqn:E.
    + apply port_test in E. lia.
    + destruct (String.eqb addr "localhost") eqn:Ea; [| reflexivity].
      apply String.eqb_eq in Ea. contradiction.
Qed.

Lemma check_arguments_port_then_address_witness :
  check_arguments unreachable "LOCALHOST" 2379 = ip_check unreachable "LOCALHOST" /\
  raises (check_arguments unreachable "10.1.1.1" 0).
Proof.
  split.
  - apply (proj2 (check_arguments_port_then_address unreachable "LOCALHOST" 2379));
      [lia | discriminate].
  - rewrite (proj1 (check_arguments_port_then_address unreachable "10.1.1.1" 0))
      by lia.
    eexists. reflexivity.
Defined.

Lemma stop_cancels_nonzero_watch_witness :
  exists s',
    stop (healthy scenario_doc 5) (watching 1%nat 5) = (ok tt, s') /\
    keep_running s' = false /\
    history s'
    = [CancelWatch 1%nat 5;
       Log DEBUG "Sending stop signal to etcd watcher thread";
       ThreadJoin;
       Log INFO "Romana watcher plugin: Stopped"].
Proof.
  apply (stop_cancels_nonzero_watch (healthy scenario_doc 5)
           (watching 1%nat 5) 1%nat 5 eq_refl eq_refl);
    [discriminate | reflexivity].
Defined.

Lemma stop_raises_with_cancel_witness :
  exists s',
    stop unreachable (watching 1%nat 5) = (raise (EtcdError 14), s') /\
    keep_running s' = true /\
    history s' = [CancelWatch 1%nat 5].
Proof.
  apply (stop_raises_with_cancel unreachable (watching 1%nat 5) 1%nat 5
           (EtcdError 14) eq_refl eq_refl);
    [discriminate | reflexivity].
Defined.

(** ** What the watching side keeps *)

Section Keeps.

Lemma kept_refl (s : Romana) : kept s s.
Proof.
  split; try reflexivity.
  - exists []. now rewrite app_nil_r.
  - exists []. now rewrite app_nil_r.
Qed.

Lemma kept_trans (s1 s2 s3 : Romana) : kept s1 s2 -> kept s2 s3 -> kept s1 s3.
Proof.
  intros [K1 C1 T1 R1 A1 P1 [q1 Q1] [e1 [H1 F1]]]
         [K2 C2 T2 R2 A2 P2 [q2 Q2] [e2 [H2 F2]]].
  split; try congruence.
  - exists (q1 ++ q2)%list. rewrite Q2, Q1. now rewrite app_assoc.
  - exists (e1 ++ e2)%list. split.
    + rewrite H2, H1. now rewrite app_assoc.
    + rewrite forallb_app, F1, F2. reflexivity.
Qed.

Lemma kept_record (e : event) (s : Romana) :
  watcher_event e = true -> kept s (record e s).
Proof.
  intros He. split; try reflexivity.
  - exists []. cbn. now rewrite app_nil_r.
  - exists [e]. cbn. now rewrite He.
Qed.

Lemma kept_enqueue (rs : route_spec) (s : Romana) : kept s (enqueue rs s).
Proof.
  split; try reflexivity.
  - now exists [rs].
  - exists []. cbn. now rewrite app_nil_r.
Qed.

Lemma kept_set_etcd (v : option client) (s : Romana) : kept s (set_etcd v s).
Proof.
  split; try reflexivity.
  - exists []. cbn. now rewrite app_nil_r.
  - exists []. cbn. now rewrite app_nil_r.
Qed.

Lemma kept_set_watch_id (v : option Z) (s : Romana) : kept s (set_watch_id v s).
Proof.
  split; try reflexivity.
  - exists []. cbn. now rewrite app_nil_r.
  - exists []. cbn. now rewrite app_nil_r.
Qed.

Lemma keeps_ret {A} (a : A) : keeps (ret a).
Proof. intros s. apply kept_refl. Qed.

Lemma keeps_throw {A} (e : exn) : keeps (@throw A e).
Proof. intros s. apply kept_refl. Qed.

Lemma keeps_lift {A} (r : result A) : keeps (lift r).
Proof. intros s. apply kept_refl. Qed.

Lemma keeps_gets {A} (f : Romana -> A) : keeps (gets f).
Proof. intros s. apply kept_refl. Qed.

Lemma keeps_attr {A} (x : option A) : keeps (attr x).
Proof. destruct x; [apply keeps_ret | apply keeps_throw]. Qed.

Lemma keeps_modify (f : Romana -> Romana) :
  (forall s, kept s (f s)) -> keeps (modify f).
Proof. intros H s. apply H. Qed.

Lemma keeps_logging (lvl : level) (msg : string) : keeps (logging lvl msg).
Proof. apply keeps_modify. intros s. now apply kept_record. Qed.

Lemma keeps_call {A} (e : event) (answer : list event -> result A) :
  watcher_event e = true -> keeps (call e answer).
Proof. intros He s. now apply kept_record. Qed.

Lemma keeps_bind {A B} (m : M A) (k : A -> M B) :
  keeps m -> (forall a, keeps (k a)) -> keeps (bind m k).
Proof.
  intros Hm Hk s. unfold bind. specialize (Hm s).
  destruct (m s) as [[e | a] s1]; [exact Hm |].
  apply (kept_trans s s1); [exact Hm | apply Hk].
Qed.

Lemma keeps_try_except {A} (body : M A) (handler : exn -> M A) :
  keeps body -> (forall e, keeps (handler e)) -> keeps (try_except body handler).
Proof.
  intros Hb Hh s. unfold try_except. specialize (Hb s).
  destruct (body s) as [[e | a] s1]; [| exact Hb].
  apply (kept_trans s s1); [exact Hb | apply Hh].
Qed.

End Keeps.

Ltac keeps_leaf :=
  first [ apply keeps_ret | apply keeps_throw | apply keeps_lift
        | apply keeps_gets | apply keeps_attr | apply keeps_logging
        | apply keeps_call; reflexivity
        | apply keeps_modify; intros;
          first [ apply kept_enqueue | apply kept_set_etcd
                | apply kept_set_watch_id | apply kept_record; reflexivity ] ].

Ltac keeps_walk :=
  repeat first
    [ keeps_leaf
    | apply keeps_bind; [| intros]
    | apply keeps_try_except; [| intros]
    | match goal with
      | |- keeps (if ?b then _ else _) => destruct b
      | |- keeps (match ?x with _ => _ end) => destruct x
      end ].

Section KeepsMethods.

Variable W : world.

Lemma keeps_load : keeps (load_topology_send_route_spec W).
Proof. unfold load_topology_send_route_spec, load_body. keeps_walk. Qed.

Lemma keeps_event_callback : keeps (event_callback W).
Proof. unfold event_callback. keeps_walk. Qed.

Lemma keeps_etcd_check_status : keeps (etcd_check_status W).
Proof. unfold etcd_check_status. keeps_walk. Qed.

Lemma keeps_establish : keeps (establish_etcd_connection_and_watch W).
Proof.
  unfold establish_etcd_connection_and_watch, reconnect_needed, connect_body,
    open_client, initial_load, register_watch.
  keeps_walk.
Qed.

Lemma keeps_wait_while_connected (fuel : nat) :
  keeps (wait_while_connected W fuel).
Proof.
  induction fuel as [| fuel IH]; cbn [wait_while_connected].
  - apply keeps_ret.
  - keeps_walk; exact IH.
Qed.

Lemma keeps_watch_etcd (fuel : nat) : keeps (watch_etcd W fuel).
Proof.
  induction fuel as [| fuel IH]; cbn [watch_etcd].
  - apply keeps_ret.
  - keeps_walk;
      first [apply keeps_wait_while_connected | exact IH].
Qed.

End KeepsMethods.

(** Between [start] and [stop], nothing the plugin runs -- a load, the
    callback, the status check, a connection attempt, the loop of
    [watch_etcd] for any number of turns -- changes the key, the two
    intervals, the configuration or the flag; the queue only grows at
    its end; and no watch is cancelled and no thread started or joined. *)
Theorem watching_side_keeps (W : world) :
  keeps (load_topology_send_route_spec W) /\
  keeps (event_callback W) /\
  keeps (etcd_check_status W) /\
  keeps (establish_etcd_connection_and_watch W) /\
  (forall fuel, keeps (wait_while_connected W fuel)) /\
  (forall fuel, keeps (watch_etcd W fuel)).
Proof.
  split; [apply keeps_load |].
  split; [apply keeps_event_callback |].
  split; [apply keeps_etcd_check_status |].
  split; [apply keeps_establish |].
  split; [apply keeps_wait_while_connected | apply keeps_watch_etcd].
Qed.

(** ** The loop of [watch_etcd] *)


Section LoopEquations.

Variable W : world.

Lemma wait_while_connected_S (fuel : nat) (s : Romana) :
  wait_while_connected W (S fuel) s
  = match etcd_check_status W s with
    | (inl e, s1) => (raise e, s1)
    | (inr true, s1) =>
        if keep_running s1
        then wait_while_connected W fuel
               (record (Sleep (connect_check_time s1)) s1)
        else (ok (Some tt), s1)
    | (inr false, s1) => (ok (Some tt), s1)
    end.
Proof.
  cbn [wait_while_connected]. unfold bind, gets, modify, ret.
  destruct (etcd_check_status W s) as [[e | [|]] s1]; try reflexivity.
  destruct (keep_running s1); reflexivity.
Qed.

Lemma watch_etcd_S (fuel : nat) (s : Romana) :
  watch_etcd W (S fuel) s
  = if keep_running s then
      match establish_etcd_connection_and_watch W
              (set_watch_id None (set_etcd None s)) with
      | (inl e, s1) => (raise e, s1)
      | (inr _, s1) =>
          match wait_while_connected W fuel s1 with
          | (inl e, s2) => (raise e, s2)
          | (inr None, s2) => (ok None, s2)
          | (inr (Some _), s2) =>
              watch_etcd W fuel
                (record (Log WARNING "Romana watcher plugin: Lost etcd connection.") s2)
          end
      end
    else (ok (Some tt), s).
Proof.
  cbn [watch_etcd]. unfold bind, gets, modify, ret, logging.
  destruct (keep_running s); [| reflexivity].
  cbv beta iota delta [ok].
  destruct (establish_etcd_connection_and_watch W _) as [[e | u] s1];
    [reflexivity |].
  destruct (wait_while_connected W fuel s1) as [[e | [u' |]] s2]; reflexivity.
Qed.

Lemma establish_unreachable (s : Romana) :
  (forall h a p t, raises (etcd3_client W h a p t)) ->
  etcd s = None ->
  establish_etcd_connection_and_watch W s
  = (ok tt,
     abandon
       (record (Connect (conf_addr s) (conf_port s) (etcd_timeout_time s))
          (record (Log DEBUG "Attempting to connect to etcd") s))).
Proof.
  intros Hdown Hc.
  rewrite establish_eq, reconnect_needed_eq, Hc, open_client_eq.
  unfold open_answer.
  destruct (Hdown (history s ++ [Log DEBUG "Attempting to connect to etcd"])%list
              (conf_addr s) (conf_port s) (etcd_timeout_time s)) as [e He].
  now rewrite He.
Qed.

End LoopEquations.

(** An etcd that cannot be reached is retried at once: when every
    attempt to open a client raises and the flag is set, the loop does
    not end within any number of turns, opens a client in every turn,
    never sleeps between the attempts and publishes nothing. *)
Theorem unreachable_etcd_is_retried_without_pause (W : world) (n : nat)
        (s : Romana) :
  (forall h a p t, raises (etcd3_client W h a p t)) ->
  keep_running s = true ->
  exists s' evs,
    watch_etcd W n s = (ok None, s') /\
    history s' = (history s ++ evs)%list /\
    count_events is_connect evs = n /\
    count_events is_sleep evs = 0%nat /\
    q_route_spec s' = q_route_spec s /\
    keep_running s' = true.
Proof.
  intros Hdown. revert s. induction n as [| n IH]; intros s Hk.
  - exists s, []. cbn. rewrite app_nil_r. auto 10.
  - rewrite watch_etcd_S, Hk, (establish_unreachable W _ Hdown) by reflexivity.
    destruct n as [| n].
    + cbn. eexists _, _. split; [reflexivity |]. cbn.
      split; [repeat rewrite <- app_assoc; reflexivity |]. cbn. auto 10.
    + rewrite wait_while_connected_S, etcd_check_status_eq.
      cbv beta iota delta [ok]. cbn -[watch_etcd].
      match goal with
      | |- context [watch_etcd W (S n) ?st] =>
          destruct (IH st) as [s' [evs [Hw [Hh [Hc [Hs [Hq Hr]]]]]]];
          [cbn; exact Hk | rewrite Hw]
      end.
      eexists s', _. split; [reflexivity |]. rewrite Hh. cbn.
      split; [repeat rewrite <- app_assoc; cbn; reflexivity |].
      rewrite Hq, Hr. cbn.
      unfold count_events in *. cbn. rewrite Hc, Hs. auto 10.
Qed.

Lemma unreachable_etcd_is_retried_without_pause_witness :
  exists s' evs,
    watch_etcd unreachable 3 (init "localhost" 2379) = (ok None, s') /\
    history s' = evs /\
    count_events is_connect evs = 3%nat /\
    count_events is_sleep evs = 0%nat.
Proof.
  destruct (unreachable_etcd_is_retried_without_pause unreachable 3
              (init "localhost" 2379))
    as [s' [evs [Hw [Hh [Hc [Hs _]]]]]].
  - intros h a p t. eexists. reflexivity.
  - reflexivity.
  - exists s', evs. auto.
Defined.




(** Once the flag is cleared the loops end at their next test: the inner
    loop returns after at most one more status call, without sleeping,
    and the outer loop then returns without opening a client, fetching
    or publishing. *)
Theorem cleared_flag_ends_the_loops (W : world) (fuel fuel' : nat) (s : Romana) :
  keep_running s = false ->
  exists s' evs,
    wait_while_connected W (S fuel) s = (ok (Some tt), s') /\
    history s' = (history s ++ evs)%list /\
    (List.length evs <= 2)%nat /\
    count_events is_sleep evs = 0%nat /\
    steps evs = [] /\
    q_route_spec s' = q_route_spec s /\
    watch_etcd W (S fuel') s' = (ok (Some tt), s').
Proof.
  intros Hk. rewrite wait_while_connected_S, etcd_check_status_eq.
  destruct (etcd s) as [c |].
  - destruct (etcd_status W (history s) c) as [e | u].
    + eexists _, [Status c; Log DEBUG "Cannot get status from etcd"].
      split; [reflexivity |]. cbn -[watch_etcd]. rewrite <- app_assoc.
      repeat split; auto. apply watch_etcd_stopped. cbn. exact Hk.
    + cbv beta iota delta [ok]. cbn [keep_running record]. rewrite Hk.
      eexists _, [Status c].
      split; [reflexivity |]. cbn -[watch_etcd].
      repeat split; auto. apply watch_etcd_stopped. cbn. exact Hk.
  - eexists _, [Log DEBUG "Cannot get status from etcd, no connection"].
    split; [reflexivity |]. cbn -[watch_etcd].
    repeat split; auto. apply watch_etcd_stopped. cbn. exact Hk.
Qed.

Lemma cleared_flag_ends_the_loops_witness :
  exists s',
    wait_while_connected (healthy scenario_doc 0) 1
      (set_keep_running false (watching 1%nat 0)) = (ok (Some tt), s') /\
    watch_etcd (healthy scenario_doc 0) 1 s' = (ok (Some tt), s').
Proof.
  destruct (cleared_flag_ends_the_loops (healthy scenario_doc 0) 0 0
              (set_keep_running false (watching 1%nat 0)) eq_refl)
    as [s' [evs [Hw [_ [_ [_ [_ [_ Hr]]]]]]]].
  exists s'. split; [exact Hw | exact Hr].
Defined.

Lemma steps_app (l1 l2 : list event) :
  steps (l1 ++ l2) = (steps l1 ++ steps l2)%list.
Proof.
  induction l1 as [| e rest IH]; simpl; [reflexivity |].
  destruct (step_of e); simpl; now rewrite IH.
Qed.






(** A change reported while there is no client -- between the loss of a
    connection and the next one -- is absorbed without any call to etcd:
    the callback logs the change and the error, and leaves the object
    and the queue as they were. *)
Theorem callback_without_client (W : world) (s : Romana) :
  etcd s = None ->
  event_callback W s
  = (ok tt,
     record (Log ERROR "Cannot load Romana topology data")
       (record
          (Log INFO "Romana watcher plugin: Detected topology change in Romana topology data")
          s)).
Proof.
  intros Hc. unfold event_callback, bind, logging, modify.
  rewrite load_eq. unfold fetched, fetch_recorded. cbn [etcd record].
  now rewrite Hc.
Qed.

Lemma callback_without_client_witness :
  q_route_spec (snd (event_callback (healthy scenario_doc 0) (init "localhost" 2379)))
  = [].
Proof.
  now rewrite (callback_without_client (healthy scenario_doc 0)
                 (init "localhost" 2379) eq_refl).
Defined.

(** The fold checks no types beyond what it subscripts and hashes: a
    network whose [cidr] is any hashable value and whose hosts carry any
    values under [ip] is stored as it is; what is a CIDR and what an
    address is left to the route spec check. *)
Theorem fold_checks_no_types (name : string) (c : json) (hs ips : list json) :
  py_hashable c = true ->
  listed_ips hs = Some ips ->
  build_route_spec
    (JObj [("networks",
            JObj [(name, JObj [("groups",
                                JObj [("cidr", c); ("hosts", JArr hs)])])])])
  = ok [(c, ips)].
Proof.
  intros Hc Hips. unfold build_route_spec. cbn.
  unfold add_network, host_ips. cbn.
  rewrite (listed_ips_mapM hs ips Hips). cbn.
  unfold rs_setitem. now rewrite Hc.
Qed.

Lemma fold_checks_no_types_witness :
  build_route_spec
    (JObj [("networks",
            JObj [("net1", JObj [("groups",
                                  JObj [("cidr", JNum 10);
                                        ("hosts", JArr [JObj [("ip", JNull)]])])])])])
  = ok [(JNum 10, [JNull])].
Proof.
  exact (fold_checks_no_types "net1" (JNum 10) [JObj [("ip", JNull)]] [JNull]
           eq_refl eq_refl).
Defined.
